(** * ContosoSearchPlugin: a shallow embedding and its specification

    The development follows [Python/src/plugins/ContosoSearchPlugin.py].

    - Python [str] values are modelled by [string]; a character is a code
      point of the Latin-1 range (0..255), on which [str.lower] is a
      character map and the white space of [str.strip] is a fixed set.
    - The three remote collaborators (embedding service, chat service and
      search service) are an environment [Env] that answers each call from
      the history of the calls made so far; the plugin's methods run in a
      monad that threads that history and may raise a Python exception.
    - Python exceptions are values [exn]: a class and the text of [str(e)]. *)

From Stdlib Require Import String Ascii List Bool ZArith NArith Lia.
From Stdlib Require Import DecimalString.
Import ListNotations.

Local Open Scope list_scope.
Local Open Scope string_scope.

Set Warnings "-register-all".

(** ** Python strings *)

Module PyStr.

(** Code points that [str.lower] changes in the Latin-1 range:
    [A-Z] and the accented capitals 0xC0..0xDE except the sign 0xD7. *)
Definition is_upper (c : ascii) : bool :=
  let n := N_of_ascii c in
  ((65 <=? n) && (n <=? 90) || (192 <=? n) && (n <=? 222) && negb (n =? 215))%N.

Definition lower_char (c : ascii) : ascii :=
  if is_upper c then ascii_of_N (N_of_ascii c + 32) else c.

(** [s.lower()] *)
Fixpoint lower (s : string) : string :=
  match s with
  | EmptyString => EmptyString
  | String c s' => String (lower_char c) (lower s')
  end.

(** White space of [str.strip]: 0x09-0x0D, 0x1C-0x20, 0x85 and 0xA0. *)
Definition is_space (c : ascii) : bool :=
  let n := N_of_ascii c in
  ((9 <=? n) && (n <=? 13) || (28 <=? n) && (n <=? 32) || (n =? 133) || (n =? 160))%N.

Fixpoint lstrip (s : string) : string :=
  match s with
  | EmptyString => EmptyString
  | String c s' => if is_space c then lstrip s' else s
  end.

Fixpoint rstrip (s : string) : string :=
  match s with
  | EmptyString => EmptyString
  | String c s' =>
      match rstrip s' with
      | EmptyString => if is_space c then EmptyString else String c EmptyString
      | r => String c r
      end
  end.

(** [s.strip()] *)
Definition strip (s : string) : string := rstrip (lstrip s).

(** [s.startswith(p)] *)
Fixpoint startswith (p s : string) : bool :=
  match p, s with
  | EmptyString, _ => true
  | String a p', String b s' => Ascii.eqb a b && startswith p' s'
  | String _ _, EmptyString => false
  end.

(** [needle in hay] *)
Fixpoint contains (needle hay : string) : bool :=
  startswith needle hay ||
  match hay with
  | EmptyString => false
  | String _ hay' => contains needle hay'
  end.

(** [s.split(sep)] for a separator of one character. *)
Fixpoint split (sep : ascii) (s : string) : list string :=
  match s with
  | EmptyString => [EmptyString]
  | String c s' =>
      if Ascii.eqb c sep then EmptyString :: split sep s'
      else match split sep s' with
           | h :: t => String c h :: t
           | [] => [String c EmptyString]
           end
  end.

(** [sep.join(l)] for a list of strings. *)
Fixpoint join (sep : string) (l : list string) : string :=
  match l with
  | [] => EmptyString
  | [x] => x
  | x :: rest => x ++ sep ++ join sep rest
  end.

(** [c in s] for a character. *)
Fixpoint has_char (c : ascii) (s : string) : bool :=
  match s with
  | EmptyString => false
  | String a s' => Ascii.eqb a c || has_char c s'
  end.

(** [bool(s)]: a string is true when it is not empty. *)
Definition truthy (s : string) : bool :=
  match s with EmptyString => false | String _ _ => true end.

(** [str(n)] for a natural number. *)
Definition str_of_nat (n : nat) : string :=
  NilZero.string_of_uint (Nat.to_uint n).

(** A string that is empty or starts with a character that is not white space. *)
Definition starts_solid (s : string) : Prop :=
  match s with
  | EmptyString => True
  | String c _ => is_space c = false
  end.

End PyStr.

Import PyStr.

(** ** extract_relevant_sentences *)

(** [any(keyword.lower() in sentence.lower() for keyword in keywords)] *)
Definition any_keyword_in (keywords : list string) (sentence : string) : bool :=
  existsb (fun keyword => contains (lower keyword) (lower sentence)) keywords.

(** One turn of the [for sentence in sentences] loop: the sentence is
    stripped, and appended to [relevant_sentences] when a keyword occurs. *)
Definition extract_step (keywords : list string)
    (relevant_sentences : list string) (sentence : string) : list string :=
  let sentence := strip sentence in
  if any_keyword_in keywords sentence
  then (relevant_sentences ++ [sentence])%list
  else relevant_sentences.

Definition extract_relevant_sentences (content : string) (keywords : list string)
  : string :=
  let sentences := split "." content in
  let relevant_sentences := fold_left (extract_step keywords) sentences [] in
  match relevant_sentences with
  | _ :: _ => join ". " (firstn 3 relevant_sentences) ++ "."
  | [] => content
  end.

(** The same transformation in the words of the specification: the
    sentences are the pieces between periods, stripped of surrounding
    white space; those holding a keyword (all letters lowered) are kept in
    their order; at most three of them are joined, and closed by a period. *)
Definition matching_sentences (content : string) (keywords : list string)
  : list string :=
  filter (any_keyword_in keywords) (map strip (split "." content)).

Definition extract_spec (content : string) (keywords : list string) : string :=
  match matching_sentences content keywords with
  | [] => content
  | first :: others => join ". " (firstn 3 (first :: others)) ++ "."
  end.

(** What holds of every sentence that is kept: it has no period, it is
    stripped, and a keyword occurs in it. *)
Definition kept (keywords : list string) (s : string) : Prop :=
  has_char "." s = false /\ strip s = s /\ any_keyword_in keywords s = true.

(** ** Python values, exceptions and dictionaries *)

Definition nl : string := String "010"%char EmptyString.
Definition dquote : string := String "034"%char EmptyString.

(** The exception classes the plugin can meet. Every one of them derives
    from [Exception], so every [except Exception] clause catches it.
    [LibraryError] stands for the classes of [requests] and of the Azure
    SDK (connection errors, HTTP errors, JSON decoding errors, ...). *)
Inductive exn_class : Type :=
| ValueError
| KeyError
| IndexError
| TypeError
| AttributeError
| UnboundLocalError
| PlainException
| LibraryError (name : string).

(** An exception: its class and the text of [str(e)]. *)
Record exn : Type := mkExn { class_of : exn_class; str_of : string }.

Inductive result (A : Type) : Type :=
| Ok (a : A)
| Raise (e : exn).
Arguments Ok {A} a.
Arguments Raise {A} e.

(** A value decoded from a JSON body. A float is kept as its IEEE-754
    binary64 bit pattern; the plugin never computes with it. *)
Inductive pyval : Type :=
| PNone
| PBool (b : bool)
| PInt (z : Z)
| PFloat (bits : Z)
| PStr (s : string)
| PList (l : list pyval)
| PDict (d : list (string * pyval)).

Definition type_name (v : pyval) : string :=
  match v with
  | PNone => "NoneType"
  | PBool _ => "bool"
  | PInt _ => "int"
  | PFloat _ => "float"
  | PStr _ => "str"
  | PList _ => "list"
  | PDict _ => "dict"
  end.

(** Dictionaries with string keys, as association lists in insertion order. *)
Fixpoint dict_get {V : Type} (d : list (string * V)) (key : string) : option V :=
  match d with
  | [] => None
  | (k, v) :: d' => if String.eqb k key then Some v else dict_get d' key
  end.

Fixpoint dict_set {V : Type} (d : list (string * V)) (key : string) (v : V)
  : list (string * V) :=
  match d with
  | [] => [(key, v)]
  | (k, w) :: d' =>
      if String.eqb k key then (k, v) :: d' else (k, w) :: dict_set d' key v
  end.

Definition not_subscriptable (v : pyval) : exn :=
  mkExn TypeError ("'" ++ type_name v ++ "' object is not subscriptable").

(** [v[key]] for a string key. *)
Definition getitem_str (v : pyval) (key : string) : result pyval :=
  match v with
  | PDict d =>
      match dict_get d key with
      | Some x => Ok x
      | None => Raise (mkExn KeyError ("'" ++ key ++ "'"))
      end
  | PList _ =>
      Raise (mkExn TypeError "list indices must be integers or slices, not str")
  | PStr _ =>
      Raise (mkExn TypeError "string indices must be integers, not 'str'")
  | _ => Raise (not_subscriptable v)
  end.

(** [v[i]] for a non-negative integer index. *)
Definition getitem_int (v : pyval) (i : nat) : result pyval :=
  match v with
  | PList l =>
      match nth_error l i with
      | Some x => Ok x
      | None => Raise (mkExn IndexError "list index out of range")
      end
  | PStr s =>
      match String.get i s with
      | Some c => Ok (PStr (String c EmptyString))
      | None => Raise (mkExn IndexError "string index out of range")
      end
  | PDict _ => Raise (mkExn KeyError (str_of_nat i))
  | _ => Raise (not_subscriptable v)
  end.

(** [v.strip()] *)
Definition method_strip (v : pyval) : result string :=
  match v with
  | PStr s => Ok (strip s)
  | _ => Raise (mkExn AttributeError
                  ("'" ++ type_name v ++ "' object has no attribute 'strip'"))
  end.

(** ** The outside world *)

(** What [requests.post] returns: [raise_for_status()] raises when
    [status_error] is set, [json()] decodes the body or raises. *)
Record Response : Type := mkResponse {
  status_error : option exn;
  json : result pyval
}.

Record VectorizedQuery : Type := mkVectorizedQuery {
  vector : pyval;
  k_nearest_neighbors : Z;
  vq_fields : string
}.

(** The keyword arguments of [SearchClient.search]. *)
Record SearchRequest : Type := mkSearchRequest {
  search_text : string;
  vector_queries : list VectorizedQuery;
  select : string;
  filter : option string;
  top : Z
}.

Record SearchClient : Type := mkSearchClient {
  endpoint : option string;
  index_name : string;
  credential : option string
}.

(** A value of a retrievable field of the index: a string or null. *)
Inductive value : Type :=
| VNone
| VStr (s : string).

(** A hit of the search service. [doc_score] is the entry
    ["@search.score"], a float kept as its bit pattern, when the hit has
    one; [doc_fields] are the entries of the hit that hold a string or
    null, as the fields read by the plugin do. Entries of other types
    (the content vector) are never read and are left out. *)
Record Document : Type := mkDocument {
  doc_score : option Z;
  doc_fields : list (string * value)
}.

(** The dictionary [search_documents] builds for a hit: the entry
    ["score"] and the copied fields. *)
Record SearchResult : Type := mkSearchResult {
  score : Z;
  fields : list (string * value)
}.

Inductive Call : Type :=
| HttpPost (url : string) (headers : list (string * option string)) (payload : pyval)
| SearchCall (client : SearchClient) (request : SearchRequest).

Definition Trace : Type := list Call.

Definition is_post (c : Call) : bool :=
  match c with HttpPost _ _ _ => true | SearchCall _ _ => false end.

(** The services answer a call from the calls made before it.
    [client_search] covers the request and the iteration over its pages:
    it gives all the hits, in the order of the service, or raises. *)
Record Env : Type := mkEnv {
  requests_post :
    Trace -> string -> list (string * option string) -> pyval -> result Response;
  client_search : Trace -> SearchClient -> SearchRequest -> result (list Document)
}.

(** ** The monad of the plugin's methods: a trace of calls, and exceptions *)

Definition M (A : Type) : Type := Trace -> result A * Trace.

Definition ret {A : Type} (a : A) : M A := fun t => (Ok a, t).

Definition raise {A : Type} (e : exn) : M A := fun t => (Raise e, t).

Definition bind {A B : Type} (m : M A) (f : A -> M B) : M B :=
  fun t =>
    match m t with
    | (Ok a, t') => f a t'
    | (Raise e, t') => (Raise e, t')
    end.

(** [try: m except Exception as e: handler e] *)
Definition try_except {A : Type} (m : M A) (handler : exn -> M A) : M A :=
  fun t =>
    match m t with
    | (Ok a, t') => (Ok a, t')
    | (Raise e, t') => handler e t'
    end.

Definition lift {A : Type} (r : result A) : M A := fun t => (r, t).

Declare Scope py_scope.
Delimit Scope py_scope with py.
Notation "x <- m ;; k" := (bind m (fun x => k))
  (at level 61, m at next level, right associativity) : py_scope.
Notation "m ;;; k" := (bind m (fun _ => k))
  (at level 61, right associativity) : py_scope.
Local Open Scope py_scope.

(** [str(v)] inside an f-string, for a configuration value. *)
Definition fmt (o : option string) : string :=
  match o with Some s => s | None => "None" end.

(** ** The plugin *)

Record Plugin : Type := mkPlugin {
  openai_endpoint : option string;
  openai_api_key : option string;
  embedding_deployment : option string;
  embedding_api_version : string;
  embedding_endpoint : option string;
  search_client : SearchClient;
  chat_endpoint : option string;
  chat_deployment : option string;
  chat_api_version : string
}.

Definition getenv_default (environ : string -> option string) (name default : string)
  : string :=
  match environ name with Some s => s | None => default end.

(** [__init__], from the process environment. *)
Definition init (environ : string -> option string) : Plugin :=
  let openai_endpoint := environ "AZURE_OPENAI_ENDPOINT" in
  {| openai_endpoint := openai_endpoint;
     openai_api_key := environ "AZURE_OPENAI_API_KEY";
     embedding_deployment := environ "AZURE_OPENAI_EMBED_DEPLOYMENT_NAME";
     embedding_api_version :=
       getenv_default environ "AZURE_OPENAI_API_VERSION" "2023-05-15";
     embedding_endpoint :=
       match environ "AZURE_OPENAI_EMBED_ENDPOINT" with
       | Some s => Some s
       | None => openai_endpoint
       end;
     search_client :=
       {| endpoint := environ "AI_SEARCH_URL";
          index_name := getenv_default environ "AZURE_SEARCH_INDEX" "employeehandbook";
          credential := environ "AI_SEARCH_KEY" |};
     chat_endpoint := openai_endpoint;
     chat_deployment := environ "AZURE_OPENAI_CHAT_DEPLOYMENT_NAME";
     chat_api_version :=
       getenv_default environ "AZURE_OPENAI_API_VERSION" "2023-12-01-preview" |}.

Definition system_prompt : string :=
  "You are a helpful assistant that rephrases and improves content from an employee handbook. " ++ nl ++
  "            Your task is to:" ++ nl ++
  "            1. Make the content clear and easy to understand" ++ nl ++
  "            2. Keep all important information intact" ++ nl ++
  "            3. Structure the response in a professional manner" ++ nl ++
  "            4. Focus on answering the specific question asked" ++ nl ++
  "            5. Remove any redundant or unclear text" ++ nl ++
  "            6. Provide a direct, specific answer to the question".

Definition user_prompt (content query : string) : string :=
  "Please rephrase and improve the following content from Contoso's employee handbook to directly answer this specific question: "
  ++ dquote ++ query ++ dquote ++ nl ++ nl ++
  "Content from handbook:" ++ nl ++
  content ++ nl ++ nl ++
  "Please provide a clear, professional, and direct response that specifically answers the question. Do not include generic information that doesn't address the question.".

(** The fields [search_documents] copies from a hit, in this order. *)
Definition result_fields : list string :=
  ["chunk_id"; "content"; "title"; "url"; "filepath"; "parent_id"].

(** The inner [for field in [...]] loop, one turn. *)
Definition copy_field (hit : Document) (result_dict : list (string * value))
    (field : string) : list (string * value) :=
  match dict_get (doc_fields hit) field with
  | Some v => dict_set result_dict field v
  | None => result_dict
  end.

(** The body of [for result in results]: the dictionary of one hit. *)
Definition format_result (hit : Document) : result SearchResult :=
  match doc_score hit with
  | None => Raise (mkExn KeyError "'@search.score'")
  | Some s =>
      Ok {| score := s; fields := fold_left (copy_field hit) result_fields [] |}
  end.

(** The loop [for result in results], appending to [search_results]. *)
Fixpoint format_results (results : list Document) (search_results : list SearchResult)
  : result (list SearchResult) :=
  match results with
  | [] => Ok search_results
  | hit :: rest =>
      match format_result hit with
      | Ok result_dict => format_results rest (search_results ++ [result_dict])
      | Raise e => Raise e
      end
  end.

(** The filter [search_documents] derives from the lowercased query. *)
Definition search_filter_of (query_lower : string) : option string :=
  if contains "security" query_lower || contains "data" query_lower then
    Some "search.ismatch('security OR data OR confidential OR privacy', 'content')"
  else if contains "vacation" query_lower || contains "pto" query_lower then
    Some "search.ismatch('vacation OR pto OR leave OR time off', 'content')"
  else if contains "policy" query_lower then
    Some "search.ismatch('policy OR guideline OR procedure', 'content')"
  else None.

(** Reading a local variable that may not have been assigned. *)
Definition read_local {A : Type} (name : string) (binding : option A) : M A :=
  match binding with
  | Some a => ret a
  | None =>
      raise (mkExn UnboundLocalError
               ("cannot access local variable '" ++ name ++
                "' where it is not associated with a value"))
  end.

(** The header groups of [query_handbook], in the order of the [if] chain. *)
Definition security_topics : list string :=
  ["data security"; "security policy"; "information security"].
Definition vacation_topics : list string := ["vacation"; "pto"; "time off"; "leave"].
Definition confidentiality_topics : list string := ["confidential"; "confidentiality"].
Definition remote_topics : list string := ["remote work"; "work from home"; "telework"].
Definition benefits_topics : list string := ["benefits"; "health"; "insurance"].

(** [any(keyword in query_lower for keyword in keywords)] *)
Definition any_in (keywords : list string) (query_lower : string) : bool :=
  existsb (fun keyword => contains keyword query_lower) keywords.

Definition generic_header (query : string) : string :=
  "**Information from Contoso Employee Handbook regarding '" ++ query ++ "':**"
  ++ nl ++ nl.

(** The [if]/[elif] chain that chooses the first line of the response. *)
Definition select_header (query : string) : string :=
  let query_lower := lower query in
  if any_in security_topics query_lower then
    "**Contoso Data Security Policy Information:**" ++ nl ++ nl
  else if any_in vacation_topics query_lower then
    "**Contoso Vacation and Time Off Policy:**" ++ nl ++ nl
  else if any_in confidentiality_topics query_lower then
    "**Contoso Confidentiality Guidelines:**" ++ nl ++ nl
  else if any_in remote_topics query_lower then
    "**Contoso Remote Work Policy:**" ++ nl ++ nl
  else if any_in benefits_topics query_lower then
    "**Contoso Employee Benefits:**" ++ nl ++ nl
  else generic_header query.

Definition security_keywords : list string :=
  ["password"; "encryption"; "access"; "confidential"; "protect"; "secure";
   "data handling"; "classification"].

Definition vacation_keywords : list string :=
  ["days"; "hours"; "request"; "approval"; "accrual"; "balance"; "holiday"].

(** [self.extract_relevant_sentences(content, keywords)] on a field value:
    [content.split] exists on strings only. *)
Definition extract_from (content : value) (keywords : list string) : result string :=
  match content with
  | VStr s => Ok (extract_relevant_sentences s keywords)
  | VNone => Raise (mkExn AttributeError "'NoneType' object has no attribute 'split'")
  end.

(** [result.get(key, default)] *)
Definition get_default (d : list (string * value)) (key : string) (default : value)
  : value :=
  match dict_get d key with Some v => v | None => default end.

(** [result.get(key)] *)
Definition get (d : list (string * value)) (key : string) : value :=
  get_default d key VNone.

(** [bool(v)] *)
Definition value_truthy (v : value) : bool :=
  match v with VNone => false | VStr s => truthy s end.

(** The narrowing of a content, which the source has once per topic:
    [relevant_sentences = self.extract_relevant_sentences(content, keywords)],
    then [if relevant_sentences: content = relevant_sentences]. *)
Definition narrow (content : value) (keywords : list string) : result value :=
  match extract_from content keywords with
  | Ok relevant_sentences =>
      Ok (if truthy relevant_sentences then VStr relevant_sentences else content)
  | Raise e => Raise e
  end.

(** The body of the loop that collects the contents: the content of one
    result, narrowed when the query asks for it. *)
Definition shape_content (query_lower : string) (r : SearchResult) : result value :=
  let content := get_default (fields r) "content" (VStr "No content available") in
  if contains "data security" query_lower || contains "security policy" query_lower then
    narrow content security_keywords
  else if contains "vacation" query_lower || contains "pto" query_lower then
    narrow content vacation_keywords
  else Ok content.

(** The loop [for i, result in enumerate(results, 1)] that fills [all_content]. *)
Fixpoint collect_contents (query_lower : string) (results : list SearchResult)
    (all_content : list value) : result (list value) :=
  match results with
  | [] => Ok all_content
  | r :: rest =>
      match shape_content query_lower r with
      | Ok content => collect_contents query_lower rest (all_content ++ [content])
      | Raise e => Raise e
      end
  end.

(** [sep.join(items)]: every item must be a string; [i] is the index of
    the first item. *)
Fixpoint join_values_from (i : nat) (items : list value) : result (list string) :=
  match items with
  | [] => Ok []
  | VStr s :: rest =>
      match join_values_from (S i) rest with
      | Ok l => Ok (s :: l)
      | Raise e => Raise e
      end
  | VNone :: _ =>
      Raise (mkExn TypeError
               ("sequence item " ++ str_of_nat i ++
                ": expected str instance, NoneType found"))
  end.

Definition join_values (sep : string) (items : list value) : result string :=
  match join_values_from 0 items with
  | Ok l => Ok (join sep l)
  | Raise e => Raise e
  end.

(** The text of a field value inside an f-string. *)
Definition fmt_value (v : value) : string :=
  match v with VStr s => s | VNone => "None" end.

(** One line of the sources section, for the result numbered [i]. *)
Definition source_line (i : nat) (r : SearchResult) : string :=
  if value_truthy (get (fields r) "title") then
    "- " ++ fmt_value (get (fields r) "title") ++ nl
  else if value_truthy (get (fields r) "url") then
    "- " ++ fmt_value (get (fields r) "url") ++ nl
  else "- Employee Handbook Section " ++ str_of_nat i ++ nl.

(** The loop [for i, result in enumerate(results, 1)] that appends the
    sources to [response]. *)
Fixpoint append_sources (i : nat) (results : list SearchResult) (response : string)
  : string :=
  match results with
  | [] => response
  | r :: rest => append_sources (S i) rest (response ++ source_line i r)
  end.

Definition no_information : string :=
  "No relevant information found in the Contoso Handbook.".

Definition error_prefix : string := "Error querying the Contoso Handbook:".

Section Methods.

Variable env : Env.
Variable self : Plugin.

(** [requests.post(url, headers=headers, json=payload)] *)
Definition post (url : string) (headers : list (string * option string))
    (payload : pyval) : M Response :=
  fun t => (requests_post env t url headers payload, (t ++ [HttpPost url headers payload])%list).

(** [self.search_client.search(...)] and the iteration over what it returns. *)
Definition search (request : SearchRequest) : M (list Document) :=
  fun t =>
    (client_search env t (search_client self) request,
     (t ++ [SearchCall (search_client self) request])%list).

(** [response.raise_for_status()] *)
Definition raise_for_status (response : Response) : M unit :=
  match status_error response with
  | Some e => raise e
  | None => ret tt
  end.

Definition api_headers : list (string * option string) :=
  [("Content-Type", Some "application/json"); ("api-key", openai_api_key self)].

Definition embedding_url : string :=
  fmt (embedding_endpoint self) ++ "/openai/deployments/" ++
  fmt (embedding_deployment self) ++ "/embeddings?api-version=" ++
  embedding_api_version self.

(** The one call of [generate_embedding]. *)
Definition embedding_call (text : string) : Call :=
  HttpPost embedding_url api_headers (PDict [("input", PStr text)]).

Definition generate_embedding (text : string) : M pyval :=
  if negb (truthy text) then raise (mkExn ValueError "Input text cannot be empty")
  else
    let url := embedding_url in
    let headers := api_headers in
    let payload := PDict [("input", PStr text)] in
    try_except
      (response <- post url headers payload ;;
       raise_for_status response ;;;
       embedding_data <- lift (json response) ;;
       data <- lift (getitem_str embedding_data "data") ;;
       first <- lift (getitem_int data 0) ;;
       lift (getitem_str first "embedding"))
      (fun e => raise (mkExn PlainException
                         ("Failed to generate embedding: " ++ str_of e))).

Definition chat_url : string :=
  fmt (chat_endpoint self) ++ "/openai/deployments/" ++
  fmt (chat_deployment self) ++ "/chat/completions?api-version=" ++
  chat_api_version self.

Definition chat_payload (content query : string) : pyval :=
  PDict
    [("messages",
      PList [PDict [("role", PStr "system"); ("content", PStr system_prompt)];
             PDict [("role", PStr "user");
                    ("content", PStr (user_prompt content query))]]);
     ("max_tokens", PInt 1000);
     ("temperature", PFloat 4596373779694328218);
     ("top_p", PFloat 4606281698874543309)].

(** The one call of [rephrase_with_chat_model]. *)
Definition chat_call (content query : string) : Call :=
  HttpPost chat_url api_headers (chat_payload content query).

(** The body of the [try] block of [rephrase_with_chat_model]. *)
Definition rephrase_try (content query : string) : M string :=
  let url := chat_url in
  let headers := api_headers in
  let payload := chat_payload content query in
  response <- post url headers payload ;;
  raise_for_status response ;;;
  result <- lift (json response) ;;
  choices <- lift (getitem_str result "choices") ;;
  choice <- lift (getitem_int choices 0) ;;
  message <- lift (getitem_str choice "message") ;;
  rephrased_content <- lift (getitem_str message "content") ;;
  lift (method_strip rephrased_content).

Definition rephrase_with_chat_model (content query : string) : M string :=
  try_except (rephrase_try content query) (fun e => ret content).

(** A search and the formatting of its results; the source has this
    text twice, with and without the filter. *)
Definition run_search (request : SearchRequest) : M (list SearchResult) :=
  results <- search request ;;
  lift (format_results results []).

(** The body of the outer [try] block of [search_documents]. Beside its
    outcome it gives the binding of the local variable [vector_query] at
    the time the block is left, which the handler reads. *)
Definition search_documents_try (query : string) (top : Z)
  : Trace -> option VectorizedQuery * (result (list SearchResult) * Trace) :=
  fun t =>
    match generate_embedding query t with
    | (Raise e, t1) => (None, (Raise e, t1))
    | (Ok query_embedding, t1) =>
        let vector_query :=
          {| vector := query_embedding;
             k_nearest_neighbors := top;
             vq_fields := "contentVector" |} in
        let search_filter := search_filter_of (lower query) in
        (Some vector_query,
         run_search {| search_text := query;
                       vector_queries := [vector_query];
                       select := "*";
                       filter := search_filter;
                       top := top |} t1)
    end.

(** The handler of the outer [try] block: the search without a filter,
    inside its own [try] block. *)
Definition search_documents_except (vector_query : option VectorizedQuery)
    (query : string) (top : Z) : M (list SearchResult) :=
  try_except
    (vector_query <- read_local "vector_query" vector_query ;;
     run_search {| search_text := query;
                   vector_queries := [vector_query];
                   select := "*";
                   filter := None;
                   top := top |})
    (fun e2 => raise (mkExn PlainException ("Search failed: " ++ str_of e2))).

Definition search_documents (query : string) (top : Z) : M (list SearchResult) :=
  fun t =>
    match search_documents_try query top t with
    | (_, (Ok search_results, t')) => (Ok search_results, t')
    | (vector_query, (Raise e, t')) =>
        search_documents_except vector_query query top t'
    end.

(** The body of the [try] block of [query_handbook]. *)
Definition query_handbook_try (query : string) (top : Z) : M string :=
  results <- search_documents query top ;;
  match results with
  | [] => ret no_information
  | _ :: _ =>
      let query_lower := lower query in
      let response := select_header query in
      all_content <- lift (collect_contents query_lower results []) ;;
      combined_content <- lift (join_values (nl ++ nl) all_content) ;;
      rephrased_content <- rephrase_with_chat_model combined_content query ;;
      let response := (response ++ rephrased_content)%string in
      let response := (response ++ nl ++ nl ++ "**Sources:**" ++ nl)%string in
      ret (append_sources 1 results response)
  end.

Definition query_handbook (query : string) (top : Z) : M string :=
  try_except (query_handbook_try query top)
    (fun e => ret (error_prefix ++ " " ++ str_of e)).

End Methods.

(** The default of the parameter [top]. *)
Definition default_top : Z := 3.

(** ** The wording of the specification, for comparison with the code *)

(** The header choice as an ordered table of keyword groups and headers,
    of which the first group that matches wins. *)
Definition header_table : list (list string * string) :=
  [(security_topics, "**Contoso Data Security Policy Information:**" ++ nl ++ nl);
   (vacation_topics, "**Contoso Vacation and Time Off Policy:**" ++ nl ++ nl);
   (confidentiality_topics, "**Contoso Confidentiality Guidelines:**" ++ nl ++ nl);
   (remote_topics, "**Contoso Remote Work Policy:**" ++ nl ++ nl);
   (benefits_topics, "**Contoso Employee Benefits:**" ++ nl ++ nl)].

Fixpoint first_match (table : list (list string * string)) (query_lower : string)
  : option string :=
  match table with
  | [] => None
  | (keywords, header) :: rest =>
      if any_in keywords query_lower then Some header
      else first_match rest query_lower
  end.

(** The lines of the sources section, for results numbered from [i]. *)
Fixpoint sources_section (i : nat) (results : list SearchResult) : string :=
  match results with
  | [] => EmptyString
  | r :: rest => source_line i r ++ sources_section (S i) rest
  end.

(** The value at [choices[0].message.content] of a decoded chat response. *)
Definition completion_content (decoded : pyval) : result pyval :=
  match getitem_str decoded "choices" with
  | Raise e => Raise e
  | Ok choices =>
      match getitem_int choices 0 with
      | Raise e => Raise e
      | Ok choice =>
          match getitem_str choice "message" with
          | Raise e => Raise e
          | Ok message => getitem_str message "content"
          end
      end
  end.

(** What the chat call yields: the generated text, trimmed, or the first
    failure among the call, the status, the decoding and the shape. *)
Definition chat_outcome (posted : result Response) : result string :=
  match posted with
  | Raise e => Raise e
  | Ok response =>
      match status_error response with
      | Some e => Raise e
      | None =>
          match json response with
          | Raise e => Raise e
          | Ok decoded =>
              match completion_content decoded with
              | Raise e => Raise e
              | Ok text => method_strip text
              end
          end
      end
  end.

(** Narrowing decided by the keyword groups of the header choice: the
    security group first, then the vacation group, else no narrowing. *)
Definition narrows_by_header_groups (query : string) (r : SearchResult) : Prop :=
  let query_lower := lower query in
  let content := get_default (fields r) "content" (VStr "No content available") in
  shape_content query_lower r =
  if any_in security_topics query_lower then narrow content security_keywords
  else if any_in vacation_topics query_lower then narrow content vacation_keywords
  else Ok content.

(** A failure of the embedding surfacing from [search_documents] as the
    error of the unassigned variable itself. *)
Definition reference_error_surfaces (env : Env) (self : Plugin)
    (query : string) (top : Z) (t : Trace) : Prop :=
  forall e t1,
    generate_embedding env self query t = (Raise e, t1) ->
    exists e' t',
      search_documents env self query top t = (Raise e', t') /\
      class_of e' = UnboundLocalError.

(** ** Sample worlds *)

Definition sample_environ (name : string) : option string :=
  if String.eqb name "AZURE_OPENAI_ENDPOINT" then Some "https://contoso.openai.azure.com"
  else if String.eqb name "AZURE_OPENAI_API_KEY" then Some "secret"
  else if String.eqb name "AZURE_OPENAI_EMBED_DEPLOYMENT_NAME" then Some "embed"
  else if String.eqb name "AZURE_OPENAI_CHAT_DEPLOYMENT_NAME" then Some "chat"
  else if String.eqb name "AI_SEARCH_URL" then Some "https://contoso.search.windows.net"
  else if String.eqb name "AI_SEARCH_KEY" then Some "searchkey"
  else None.

Definition sample_plugin : Plugin := init sample_environ.

Definition sample_embedding : pyval :=
  PList [PFloat 4596373779694328218; PFloat 4606281698874543309].

Definition embedding_response : Response :=
  {| status_error := None;
     json := Ok (PDict [("object", PStr "list");
                        ("data", PList [PDict [("index", PInt 0);
                                               ("embedding", sample_embedding)]])]) |}.

Definition chat_response (text : pyval) : Response :=
  {| status_error := None;
     json := Ok (PDict [("choices",
                         PList [PDict [("index", PInt 0);
                                       ("message",
                                        PDict [("role", PStr "assistant");
                                               ("content", text)])]])]) |}.

Definition sample_hits : list Document :=
  [{| doc_score := Some 4606281698874543309%Z;
      doc_fields :=
        [("chunk_id", VStr "c1");
         ("content",
          VStr "Employees get 15 days PTO. Submit requests via the portal. Unrelated sentence.");
         ("title", VStr "Time Off");
         ("category", VStr "hr")] |};
   {| doc_score := Some 4596373779694328218%Z;
      doc_fields :=
        [("content", VStr "Use a strong password. Lunch is at noon.");
         ("url", VStr "https://contoso.example/handbook")] |}].

Definition service_down (what : string) : exn :=
  mkExn (LibraryError "ConnectionError") (what ++ " is unreachable").

(** A world fixed by four answers: to the embedding call, to the chat
    call, to a search with a filter and to a search without one. *)
Definition world (embedding chat : result Response)
    (filtered plain : result (list Document)) : Env :=
  {| requests_post := fun _ url _ _ =>
       if contains "/embeddings?" url then embedding else chat;
     client_search := fun _ _ request =>
       match filter request with
       | Some _ => filtered
       | None => plain
       end |}.

Definition world_ok : Env :=
  world (Ok embedding_response) (Ok (chat_response (PStr "  Fifteen days a year.  ")))
        (Ok sample_hits) (Ok sample_hits).

Definition world_embedding_down : Env :=
  world (Raise (service_down "embedding service"))
        (Ok (chat_response (PStr "unused"))) (Ok sample_hits) (Ok sample_hits).

Definition world_filter_rejected : Env :=
  world (Ok embedding_response) (Ok (chat_response (PStr "  Fifteen days a year.  ")))
        (Raise (mkExn (LibraryError "HttpResponseError") "Invalid expression"))
        (Ok sample_hits).

Definition world_search_down : Env :=
  world (Ok embedding_response) (Ok (chat_response (PStr "unused")))
        (Raise (service_down "search service"))
        (Raise (service_down "search service")).

Definition world_nothing_found : Env :=
  world (Ok embedding_response) (Ok (chat_response (PStr "unused"))) (Ok []) (Ok []).

Definition world_chat_down : Env :=
  world (Ok embedding_response) (Raise (service_down "chat service"))
        (Ok sample_hits) (Ok sample_hits).

(** The search request of [search_documents] without a filter. *)
Definition plain_request (query : string) (v : VectorizedQuery) (top : Z)
  : SearchRequest :=
  {| search_text := query;
     vector_queries := [v];
     select := "*";
     filter := None;
     top := top |}.

(** A dictionary of [search_documents] holds the score of its hit and,
    of the fields of the hit, those of [result_fields]. *)
Definition formatted (hit : Document) (r : SearchResult) : Prop :=
  doc_score hit = Some (score r) /\
  forall field,
    dict_get (fields r) field =
    if existsb (String.eqb field) result_fields
    then dict_get (doc_fields hit) field
    else None.

(** What [search_documents] gives for [sample_hits]. *)
Definition sample_results : list SearchResult :=
  [{| score := 4606281698874543309;
      fields :=
        [("chunk_id", VStr "c1");
         ("content",
          VStr "Employees get 15 days PTO. Submit requests via the portal. Unrelated sentence.");
         ("title", VStr "Time Off")] |};
   {| score := 4596373779694328218;
      fields :=
        [("content", VStr "Use a strong password. Lunch is at noon.");
         ("url", VStr "https://contoso.example/handbook")] |}].

Definition unbound_vector_query : string :=
  "cannot access local variable 'vector_query' where it is not associated with a value".

(** ** Further definitions used by the properties of the methods *)

(** The number of occurrences of a character: [s.count(c)]. *)
Fixpoint count_char (c : ascii) (s : string) : nat :=
  match s with
  | EmptyString => 0
  | String a s' => (if Ascii.eqb a c then 1 else 0) + count_char c s'
  end.

(** A string of white space only (or empty). *)
Fixpoint blank (s : string) : bool :=
  match s with
  | EmptyString => true
  | String c s' => is_space c && blank s'
  end.

(** [field in result] for a hit. *)
Definition has_field (hit : Document) (field : string) : bool :=
  match dict_get (doc_fields hit) field with
  | Some _ => true
  | None => false
  end.

(** The [VectorizedQuery] that [search_documents] builds from an embedding. *)
Definition query_vector (query_embedding : pyval) (top : Z) : VectorizedQuery :=
  {| vector := query_embedding;
     k_nearest_neighbors := top;
     vq_fields := "contentVector" |}.

(** The search request of the [try] block of [search_documents]. *)
Definition first_request (query : string) (v : VectorizedQuery) (top : Z)
  : SearchRequest :=
  {| search_text := query;
     vector_queries := [v];
     select := "*";
     filter := search_filter_of (lower query);
     top := top |}.

(** A result that has neither a title nor a URL to show. *)
Definition anonymous (r : SearchResult) : Prop :=
  value_truthy (get (fields r) "title") = false /\
  value_truthy (get (fields r) "url") = false.

Definition placeholder_line (i : nat) : string :=
  "- Employee Handbook Section " ++ str_of_nat i ++ nl.

(** The placeholder lines of [n] results numbered from [i]. *)
Fixpoint placeholder_lines (i n : nat) : string :=
  match n with
  | O => EmptyString
  | S n' => placeholder_line i ++ placeholder_lines (S i) n'
  end.

Definition security_header : string :=
  "**Contoso Data Security Policy Information:**" ++ nl ++ nl.

Definition world_blank_answer : Env :=
  world (Ok embedding_response)
        (Ok (chat_response (PStr (" " ++ nl ++ "  "))))
        (Ok sample_hits) (Ok sample_hits).

Definition world_no_data : Env :=
  world (Ok {| status_error := None; json := Ok (PDict [("data", PList [])]) |})
        (Ok (chat_response (PStr "unused"))) (Ok sample_hits) (Ok sample_hits).

Definition world_bad_status : Env :=
  world (Ok {| status_error :=
                 Some (mkExn (LibraryError "HTTPError") "401 Client Error");
               json := Ok PNone |})
        (Ok (chat_response (PStr "unused"))) (Ok sample_hits) (Ok sample_hits).

(** Hits of which the second has no score, and hits of which the second
    has a null content. *)
Definition scoreless_hits : list Document :=
  [{| doc_score := Some 4606281698874543309%Z;
      doc_fields := [("content", VStr "Employees get 15 days PTO.")] |};
   {| doc_score := None;
      doc_fields := [("content", VStr "Lunch is at noon.")] |}].

Definition null_hits : list Document :=
  [{| doc_score := Some 4606281698874543309%Z;
      doc_fields := [("content", VStr "Employees get 15 days PTO.")] |};
   {| doc_score := Some 4596373779694328218%Z;
      doc_fields := [("content", VNone); ("title", VStr "Untitled")] |}].

Definition world_null_content : Env :=
  world (Ok embedding_response) (Ok (chat_response (PStr "unused")))
        (Ok null_hits) (Ok null_hits).

(** Case analysis on a scrutinee of the goal that has no [match] inside. *)
Ltac break_match :=
  match goal with
  | |- context [match ?x with _ => _ end] =>
      lazymatch x with
      | context [match _ with _ => _ end] => fail
      | _ => destruct x eqn:?; cbn beta iota
      end
  end.

(** * Properties *)

(** ** Facts about Python strings *)

Module PyStrFacts.

Lemma append_empty_r (s : string) : s ++ EmptyString = s.
Proof. induction s as [|c s IH]; simpl; [reflexivity | now rewrite IH]. Qed.

Lemma append_assoc (a b c : string) : (a ++ b) ++ c = a ++ (b ++ c).
Proof. induction a as [|x a IH]; simpl; [reflexivity | now rewrite IH]. Qed.

Lemma startswith_app (p s : string) : startswith p (p ++ s) = true.
Proof.
  induction p as [|c p IH]; simpl; [reflexivity |].
  now rewrite Ascii.eqb_refl, IH.
Qed.

Lemma startswith_empty (p : string) : p <> EmptyString -> startswith p EmptyString = false.
Proof. destruct p; [congruence | reflexivity]. Qed.

Lemma contains_empty (p : string) : p <> EmptyString -> contains p EmptyString = false.
Proof. intros H; simpl. now rewrite (startswith_empty p H). Qed.

Lemma contains_unfold (p s : string) :
  contains p s =
  startswith p s ||
  match s with EmptyString => false | String _ s' => contains p s' end.
Proof. destruct s; reflexivity. Qed.

Lemma contains_app (a p b : string) : contains p (a ++ p ++ b) = true.
Proof.
  induction a as [|c a IH].
  - rewrite contains_unfold. simpl append. now rewrite startswith_app.
  - change (String c a ++ p ++ b) with (String c (a ++ p ++ b)).
    rewrite contains_unfold. cbv iota. rewrite IH. apply orb_true_r.
Qed.

Lemma lower_empty (s : string) : lower s = EmptyString -> s = EmptyString.
Proof. destruct s; [reflexivity | discriminate]. Qed.

Lemma lower_char_idem (c : ascii) : lower_char (lower_char c) = lower_char c.
Proof. destruct c as [[] [] [] [] [] [] [] []]; reflexivity. Qed.

Lemma lower_idem (s : string) : lower (lower s) = lower s.
Proof.
  induction s as [|c s IH]; simpl; [reflexivity |].
  now rewrite lower_char_idem, IH.
Qed.

Lemma split_not_nil (sep : ascii) (s : string) : split sep s <> [].
Proof.
  induction s as [|c s IH]; simpl; [discriminate |].
  destruct (Ascii.eqb c sep); [discriminate |].
  destruct (split sep s); [contradiction | discriminate].
Qed.

Lemma split_no_sep (sep : ascii) (s x : string) :
  In x (split sep s) -> has_char sep x = false.
Proof.
  revert x; induction s as [|c s IH]; simpl; intros x H.
  - destruct H as [<- | []]. reflexivity.
  - destruct (Ascii.eqb c sep) eqn:E.
    + destruct H as [<- | H]; [reflexivity | now apply IH].
    + destruct (split sep s) as [|h t] eqn:Es.
      * now destruct (split_not_nil sep s).
      * destruct H as [<- | H].
        -- simpl. rewrite E. apply IH. now left.
        -- apply IH. now right.
Qed.

Lemma split_whole (sep : ascii) (a : string) :
  has_char sep a = false -> split sep a = [a].
Proof.
  induction a as [|c a IH]; simpl; intros H; [reflexivity |].
  apply orb_false_iff in H as [Hc Ha].
  rewrite Hc, (IH Ha). reflexivity.
Qed.

Lemma split_app_sep (sep : ascii) (a r : string) :
  has_char sep a = false -> split sep (a ++ String sep r) = a :: split sep r.
Proof.
  induction a as [|c a IH]; simpl; intros H.
  - now rewrite Ascii.eqb_refl.
  - apply orb_false_iff in H as [Hc Ha].
    rewrite Hc, (IH Ha). reflexivity.
Qed.

Lemma split_cons_other (sep c : ascii) (s : string) :
  Ascii.eqb c sep = false ->
  split sep (String c s) =
  String c (hd EmptyString (split sep s)) :: tl (split sep s).
Proof.
  intros H; simpl. rewrite H.
  destruct (split sep s) eqn:E; [now destruct (split_not_nil sep s) | reflexivity].
Qed.

(** Splitting the text that [extract_relevant_sentences] builds gives its
    sentences back, each but the first after one space, and a last empty
    piece after the closing period. *)
Lemma split_join_period (x : string) (l : list string) :
  has_char "." x = false ->
  Forall (fun s => has_char "." s = false) l ->
  split "." (join ". " (x :: l) ++ ".") =
  (x :: map (String " ") l ++ [EmptyString])%list.
Proof.
  revert x; induction l as [|y l IH]; intros x Hx Hl.
  - simpl join. change (x ++ ".") with (x ++ String "." EmptyString).
    rewrite (split_app_sep _ _ _ Hx). reflexivity.
  - inversion Hl as [|? ? Hy Hl']; subst.
    change (join ". " (x :: y :: l)) with (x ++ ". " ++ join ". " (y :: l)).
    rewrite !append_assoc.
    change (x ++ ". " ++ join ". " (y :: l) ++ ".")
      with (x ++ String "." (String " " (join ". " (y :: l) ++ "."))).
    rewrite (split_app_sep _ _ _ Hx).
    rewrite split_cons_other by reflexivity.
    rewrite (IH y Hy Hl'). reflexivity.
Qed.

Lemma has_char_lstrip (c : ascii) (s : string) :
  has_char c s = false -> has_char c (lstrip s) = false.
Proof.
  induction s as [|a s IH]; simpl; intros H; [reflexivity |].
  apply orb_false_iff in H as [Ha Hs].
  destruct (is_space a); [now apply IH |].
  simpl. now rewrite Ha, Hs.
Qed.

Lemma has_char_rstrip (c : ascii) (s : string) :
  has_char c s = false -> has_char c (rstrip s) = false.
Proof.
  induction s as [|a s IH]; simpl; intros H; [reflexivity |].
  apply orb_false_iff in H as [Ha Hs].
  specialize (IH Hs).
  destruct (rstrip s) as [|b r].
  - destruct (is_space a); simpl; [reflexivity | now rewrite Ha].
  - simpl in *. now rewrite Ha, IH.
Qed.

Lemma has_char_strip (c : ascii) (s : string) :
  has_char c s = false -> has_char c (strip s) = false.
Proof. intros H. now apply has_char_rstrip, has_char_lstrip. Qed.

Lemma lstrip_solid (s : string) : starts_solid (lstrip s).
Proof.
  induction s as [|c s IH]; simpl; [exact I |].
  destruct (is_space c) eqn:E; [exact IH | exact E].
Qed.

Lemma lstrip_of_solid (s : string) : starts_solid s -> lstrip s = s.
Proof. destruct s as [|c s]; simpl; [reflexivity | now intros ->]. Qed.

Lemma rstrip_solid (s : string) : starts_solid s -> starts_solid (rstrip s).
Proof.
  destruct s as [|c s]; simpl; [exact (fun H => H) |].
  intros H. rewrite H. now destruct (rstrip s).
Qed.

Lemma rstrip_idem (s : string) : rstrip (rstrip s) = rstrip s.
Proof.
  induction s as [|c s IH]; simpl; [reflexivity |].
  destruct (rstrip s) as [|b r] eqn:E.
  - destruct (is_space c) eqn:Ec; simpl; [reflexivity | now rewrite Ec].
  - change (rstrip (String c (String b r)))
      with (match rstrip (String b r) with
            | EmptyString => if is_space c then EmptyString else String c EmptyString
            | String _ _ as r0 => String c r0
            end).
    now rewrite IH.
Qed.

Lemma strip_idem (s : string) : strip (strip s) = strip s.
Proof.
  unfold strip.
  rewrite (lstrip_of_solid (rstrip (lstrip s))).
  - apply rstrip_idem.
  - apply rstrip_solid, lstrip_solid.
Qed.

Lemma strip_after_space (s : string) : strip (String " " s) = strip s.
Proof. reflexivity. Qed.

End PyStrFacts.

Import PyStrFacts.

(** ** extract_relevant_sentences *)

Lemma Forall_take {A : Type} (P : A -> Prop) (n : nat) (l : list A) :
  Forall P l -> Forall P (firstn n l).
Proof.
  revert l; induction n as [|n IH]; intros l H; [constructor |].
  destruct H; simpl; constructor; auto.
Qed.

Section Extract.

Variable keywords : list string.

Lemma extract_loop (sentences acc : list string) :
  fold_left (extract_step keywords) sentences acc =
  (acc ++ List.filter (any_keyword_in keywords) (map strip sentences))%list.
Proof.
  revert acc; induction sentences as [|x l IH]; intros acc; simpl.
  - now rewrite app_nil_r.
  - rewrite IH. unfold extract_step.
    destruct (any_keyword_in keywords (strip x)); [|reflexivity].
    now rewrite <- app_assoc.
Qed.

Lemma extract_refines (content : string) :
  extract_relevant_sentences content keywords = extract_spec content keywords.
Proof.
  unfold extract_relevant_sentences, extract_spec, matching_sentences.
  rewrite extract_loop. simpl app.
  now destruct (List.filter _ _).
Qed.

Lemma matching_kept (content : string) :
  Forall (kept keywords) (matching_sentences content keywords).
Proof.
  apply Forall_forall. intros s Hs.
  apply filter_In in Hs as [Hin Hhit].
  apply in_map_iff in Hin as [p [<- Hp]].
  repeat split.
  - apply has_char_strip. exact (split_no_sep _ _ _ Hp).
  - apply strip_idem.
  - exact Hhit.
Qed.

Lemma no_keyword_in_empty :
  Forall (fun k => k <> EmptyString) keywords -> any_keyword_in keywords EmptyString = false.
Proof.
  unfold any_keyword_in. induction 1 as [|k l Hk _ IH]; [reflexivity |].
  cbn [existsb]. rewrite IH, orb_false_r.
  change (lower EmptyString) with EmptyString. apply contains_empty.
  intros E. now apply lower_empty in E.
Qed.

Lemma restrip_kept (l : list string) :
  Forall (kept keywords) l -> map strip (map (String " ") l) = l.
Proof.
  induction 1 as [|x l [_ [Hx _]] _ IH]; simpl; [reflexivity |].
  rewrite strip_after_space, Hx. now f_equal.
Qed.

Lemma filter_kept (l : list string) :
  Forall (kept keywords) l -> List.filter (any_keyword_in keywords) l = l.
Proof.
  induction 1 as [|x l [_ [_ Hx]] _ IH]; simpl; [reflexivity |].
  rewrite Hx. now f_equal.
Qed.

Lemma kept_no_period (l : list string) :
  Forall (kept keywords) l -> Forall (fun s => has_char "." s = false) l.
Proof. apply Forall_impl. now intros s [H _]. Qed.

(** A text built from at most three kept sentences is a fixed point. *)
Lemma extract_fixed (x : string) (l : list string) :
  Forall (fun k => k <> EmptyString) keywords ->
  Forall (kept keywords) (x :: l) -> (length (x :: l) <= 3)%nat ->
  extract_spec (join ". " (x :: l) ++ ".") keywords = join ". " (x :: l) ++ ".".
Proof.
  intros Hk Hl Hlen. inversion Hl as [|? ? Hx Hl']; subst.
  unfold extract_spec, matching_sentences.
  rewrite split_join_period;
    [| now destruct Hx | now apply kept_no_period].
  change (map strip (x :: map (String " ") l ++ [EmptyString])%list)
    with (strip x :: map strip (map (String " ") l ++ [EmptyString]))%list.
  rewrite map_app, (restrip_kept l Hl').
  destruct Hx as [_ [Hs Hhit]]. rewrite Hs.
  change (List.filter (any_keyword_in keywords) (x :: l ++ map strip [EmptyString])%list)
    with (if any_keyword_in keywords x
          then x :: List.filter (any_keyword_in keywords) (l ++ [EmptyString])
          else List.filter (any_keyword_in keywords) (l ++ [EmptyString]))%list.
  rewrite Hhit, List.filter_app, (filter_kept l Hl').
  simpl List.filter. rewrite (no_keyword_in_empty Hk), app_nil_r.
  now rewrite (firstn_all2 (n := 3) (x :: l)) by exact Hlen.
Qed.

End Extract.

(** C7. [extract_relevant_sentences] splits the content at the periods,
    keeps in their order the sentences in which a keyword occurs when
    letter case is ignored, joins at most the first three of them with a
    period and a space and closes them with a period, and gives the
    content back when no sentence matches; the two examples of the
    specification evaluate as stated. *)
Theorem C7_extract_relevant_sentences :
  (forall content keywords,
      extract_relevant_sentences content keywords = extract_spec content keywords)
  /\ (forall content keywords,
         matching_sentences content keywords = [] ->
         extract_relevant_sentences content keywords = content)
  /\ (forall keywords sentence,
         any_keyword_in keywords sentence =
         any_keyword_in (map lower keywords) (lower sentence))
  /\ extract_relevant_sentences
       "Employees get 15 days PTO. Submit requests via the portal. Unrelated sentence."
       ["days"; "request"]
     = "Employees get 15 days PTO. Submit requests via the portal."
  /\ extract_relevant_sentences "No matching keywords here." ["zzz"]
     = "No matching keywords here.".
Proof.
  split; [exact (fun c k => extract_refines k c) |].
  split.
  { intros content keywords H. rewrite extract_refines.
    unfold extract_spec. now rewrite H. }
  split.
  { intros keywords sentence. unfold any_keyword_in.
    rewrite lower_idem. induction keywords as [|k l IH]; simpl; [reflexivity |].
    now rewrite lower_idem, IH. }
  split; reflexivity.
Qed.

(** C10. With keywords that are not empty, [extract_relevant_sentences]
    is idempotent: applied to its own result with the same keywords it
    gives that result back. *)
Theorem C10_extract_idempotent (content : string) (keywords : list string) :
  Forall (fun k => k <> EmptyString) keywords ->
  extract_relevant_sentences (extract_relevant_sentences content keywords) keywords
  = extract_relevant_sentences content keywords.
Proof.
  intros Hk. rewrite !extract_refines.
  destruct (matching_sentences content keywords) as [|x l] eqn:E.
  - unfold extract_spec at 2. rewrite E. unfold extract_spec. now rewrite E.
  - assert (Hout : extract_spec content keywords
                   = join ". " (x :: firstn 2 l) ++ ".")
      by (unfold extract_spec; now rewrite E).
    rewrite Hout.
    pose proof (matching_kept keywords content) as Hall. rewrite E in Hall.
    assert (Hf : Forall (kept keywords) (firstn 3 (x :: l)))
      by now apply Forall_take.
    assert (Hlen : (length (firstn 3 (x :: l)) <= 3)%nat)
      by apply firstn_le_length.
    change (firstn 3 (x :: l)) with (x :: firstn 2 l) in *.
    exact (extract_fixed keywords x (firstn 2 l) Hk Hf Hlen).
Qed.

Lemma C10_extract_idempotent_witness :
  Forall (fun k => k <> EmptyString) ["days"; "request"] /\
  extract_relevant_sentences
    (extract_relevant_sentences
       "Up to 15 days. Ask. Send a request. Days off. Request it early."
       ["days"; "request"])
    ["days"; "request"]
  = extract_relevant_sentences
      "Up to 15 days. Ask. Send a request. Days off. Request it early."
      ["days"; "request"].
Proof.
  assert (H : Forall (fun k : string => k <> EmptyString) ["days"; "request"])
    by (repeat constructor; discriminate).
  split; [exact H | exact (C10_extract_idempotent _ _ H)].
Defined.

(** ** Running the monad *)

Section Running.

Context {A B : Type}.

Lemma bind_ok (m : M A) (f : A -> M B) (t t' : Trace) (a : A) :
  m t = (Ok a, t') -> bind m f t = f a t'.
Proof. unfold bind. now intros ->. Qed.

Lemma bind_raise (m : M A) (f : A -> M B) (t t' : Trace) (e : exn) :
  m t = (Raise e, t') -> bind m f t = (Raise e, t').
Proof. unfold bind. now intros ->. Qed.

Lemma try_ok (m : M A) (h : exn -> M A) (t t' : Trace) (a : A) :
  m t = (Ok a, t') -> try_except m h t = (Ok a, t').
Proof. unfold try_except. now intros ->. Qed.

Lemma try_raise (m : M A) (h : exn -> M A) (t t' : Trace) (e : exn) :
  m t = (Raise e, t') -> try_except m h t = h e t'.
Proof. unfold try_except. now intros ->. Qed.

End Running.

(** ** generate_embedding *)

Section Embedding.

Variable env : Env.
Variable self : Plugin.

Lemma embedding_empty (t : Trace) :
  generate_embedding env self EmptyString t
  = (Raise (mkExn ValueError "Input text cannot be empty"), t).
Proof. reflexivity. Qed.

Lemma embedding_trace (text : string) (t : Trace) :
  text <> EmptyString ->
  snd (generate_embedding env self text t) = (t ++ [embedding_call self text])%list.
Proof.
  intros H. destruct text as [|c text]; [congruence |].
  unfold generate_embedding, embedding_call. cbn [truthy negb].
  unfold try_except, bind, post, raise_for_status, lift, raise, ret.
  repeat break_match; reflexivity.
Qed.

Lemma embedding_value (text : string) (t : Trace)
    (response : Response) (embedding_data data first embedding : pyval) :
  text <> EmptyString ->
  requests_post env t (embedding_url self) (api_headers self)
    (PDict [("input", PStr text)]) = Ok response ->
  status_error response = None ->
  json response = Ok embedding_data ->
  getitem_str embedding_data "data" = Ok data ->
  getitem_int data 0 = Ok first ->
  getitem_str first "embedding" = Ok embedding ->
  generate_embedding env self text t
  = (Ok embedding, (t ++ [embedding_call self text])%list).
Proof.
  intros H Hp Hs Hj Hd Hf He. destruct text as [|c text]; [congruence |].
  unfold generate_embedding, embedding_call. cbn [truthy negb].
  unfold try_except, bind, post, raise_for_status, lift, raise, ret.
  now rewrite Hp, Hs, Hj, Hd, Hf, He.
Qed.

(** Whatever fails after the check of the text is raised again as a plain
    exception that names the embedding. *)
Lemma embedding_raises (text : string) (t t' : Trace) (e : exn) :
  generate_embedding env self text t = (Raise e, t') ->
  (text = EmptyString /\ class_of e = ValueError /\ t' = t) \/
  (text <> EmptyString /\ class_of e = PlainException /\
   startswith "Failed to generate embedding: " (str_of e) = true).
Proof.
  destruct text as [|c text].
  - rewrite embedding_empty. intros [= <- <-]. now left.
  - intros H. right. split; [discriminate |]. revert H.
    unfold generate_embedding. cbn [truthy negb].
    unfold try_except, bind, post, raise_for_status, lift, raise, ret.
    repeat break_match; intros [= <- ?]; split; reflexivity.
Qed.

End Embedding.

(** C8. For a text that is not empty [generate_embedding] makes one HTTP
    call, the POST to the embedding deployment, and returns the value at
    [data[0].embedding] of the decoded response as it is; for the empty
    text it raises [ValueError] and makes no call. *)
Theorem C8_generate_embedding (env : Env) (self : Plugin) (text : string) (t : Trace) :
  (text = EmptyString ->
   generate_embedding env self text t
   = (Raise (mkExn ValueError "Input text cannot be empty"), t))
  /\ (text <> EmptyString ->
      snd (generate_embedding env self text t)
      = (t ++ [HttpPost (embedding_url self) (api_headers self)
                 (PDict [("input", PStr text)])])%list
      /\ forall response embedding_data data first embedding,
          requests_post env t (embedding_url self) (api_headers self)
            (PDict [("input", PStr text)]) = Ok response ->
          status_error response = None ->
          json response = Ok embedding_data ->
          getitem_str embedding_data "data" = Ok data ->
          getitem_int data 0 = Ok first ->
          getitem_str first "embedding" = Ok embedding ->
          fst (generate_embedding env self text t) = Ok embedding).
Proof.
  split.
  - intros ->. apply embedding_empty.
  - intros H. split; [exact (embedding_trace env self text t H) |].
    intros response embedding_data data first embedding Hp Hs Hj Hd Hf He.
    now rewrite (embedding_value env self text t _ _ _ _ _ H Hp Hs Hj Hd Hf He).
Qed.

Lemma C8_generate_embedding_witness :
  generate_embedding world_ok sample_plugin EmptyString []
  = (Raise (mkExn ValueError "Input text cannot be empty"), [])
  /\ snd (generate_embedding world_ok sample_plugin "vacation policy" [])
     = [HttpPost "https://contoso.openai.azure.com/openai/deployments/embed/embeddings?api-version=2023-05-15"
          [("Content-Type", Some "application/json"); ("api-key", Some "secret")]
          (PDict [("input", PStr "vacation policy")])]
  /\ fst (generate_embedding world_ok sample_plugin "vacation policy" [])
     = Ok sample_embedding.
Proof.
  split.
  - exact (proj1 (C8_generate_embedding world_ok sample_plugin EmptyString []) eq_refl).
  - destruct (proj2 (C8_generate_embedding world_ok sample_plugin "vacation policy" []))
      as [Htrace Hvalue]; [discriminate |].
    split; [exact Htrace |].
    eapply Hvalue; reflexivity.
Defined.

(** ** search_documents *)

Section Searching.

Variable env : Env.
Variable self : Plugin.

Lemma run_search_run (request : SearchRequest) (t : Trace) :
  run_search env self request t =
  (match client_search env t (search_client self) request with
   | Ok hits => format_results hits []
   | Raise e => Raise e
   end,
   (t ++ [SearchCall (search_client self) request])%list).
Proof.
  unfold run_search, bind, search, lift.
  now destruct (client_search env t (search_client self) request).
Qed.

Lemma dict_get_set {V : Type} (d : list (string * V)) (key key' : string) (v : V) :
  dict_get (dict_set d key v) key' =
  if String.eqb key key' then Some v else dict_get d key'.
Proof.
  induction d as [|[k w] d IH]; simpl.
  - reflexivity.
  - destruct (String.eqb k key) eqn:Ek; simpl.
    + apply String.eqb_eq in Ek; subst k.
      now destruct (String.eqb key key').
    + rewrite IH. destruct (String.eqb k key') eqn:Ek'; [|reflexivity].
      apply String.eqb_eq in Ek'; subst k.
      now rewrite String.eqb_sym, Ek.
Qed.

Lemma copied_fields (hit : Document) (names : list string)
    (acc : list (string * value)) (field : string) :
  dict_get (fold_left (copy_field hit) names acc) field =
  if existsb (String.eqb field) names
  then match dict_get (doc_fields hit) field with
       | Some v => Some v
       | None => dict_get acc field
       end
  else dict_get acc field.
Proof.
  revert acc; induction names as [|n names IH]; intros acc; simpl.
  - reflexivity.
  - rewrite IH. unfold copy_field.
    destruct (String.eqb field n) eqn:E; simpl.
    + apply String.eqb_eq in E; subst n.
      destruct (dict_get (doc_fields hit) field) as [v|] eqn:Ev.
      * rewrite dict_get_set, String.eqb_refl. now destruct (existsb _ names).
      * now destruct (existsb _ names).
    + destruct (dict_get (doc_fields hit) n) as [v|]; [|reflexivity].
      rewrite dict_get_set, String.eqb_sym, E. reflexivity.
Qed.

Lemma format_result_formatted (hit : Document) (r : SearchResult) :
  format_result hit = Ok r -> formatted hit r.
Proof.
  unfold format_result, formatted.
  destruct (doc_score hit) as [s|]; [|discriminate].
  intros [= <-]. split; [reflexivity |].
  intros field.
  change (dict_get (fold_left (copy_field hit) result_fields []) field
          = if existsb (String.eqb field) result_fields
            then dict_get (doc_fields hit) field
            else None).
  rewrite copied_fields.
  destruct (existsb _ result_fields); [|reflexivity].
  now destruct (dict_get (doc_fields hit) field).
Qed.

Lemma format_results_formatted (hits : list Document) (acc rs : list SearchResult) :
  format_results hits acc = Ok rs ->
  exists rs', rs = (acc ++ rs')%list /\ Forall2 formatted hits rs'.
Proof.
  revert acc; induction hits as [|hit hits IH]; intros acc; simpl.
  - intros [= <-]. exists []. now rewrite app_nil_r.
  - destruct (format_result hit) as [r|e] eqn:E; [|discriminate].
    intros H. destruct (IH _ H) as [rs' [-> HF]].
    exists (r :: rs'). rewrite <- app_assoc. split; [reflexivity |].
    constructor; [now apply format_result_formatted | exact HF].
Qed.

Lemma search_documents_ok (query : string) (top : Z) (t t' : Trace)
    (vq : option VectorizedQuery) (rs : list SearchResult) :
  search_documents_try env self query top t = (vq, (Ok rs, t')) ->
  search_documents env self query top t = (Ok rs, t').
Proof. unfold search_documents. now intros ->. Qed.

Lemma search_documents_retry (query : string) (top : Z) (t t' : Trace)
    (vq : option VectorizedQuery) (e : exn) :
  search_documents_try env self query top t = (vq, (Raise e, t')) ->
  search_documents env self query top t
  = search_documents_except env self vq query top t'.
Proof. unfold search_documents. now intros ->. Qed.

Lemma except_unbound (query : string) (top : Z) (t : Trace) :
  search_documents_except env self None query top t =
  (Raise (mkExn PlainException
            "Search failed: cannot access local variable 'vector_query' where it is not associated with a value"),
   t).
Proof. reflexivity. Qed.

Lemma except_bound (v : VectorizedQuery) (query : string) (top : Z) (t : Trace) :
  search_documents_except env self (Some v) query top t =
  (match fst (run_search env self (plain_request query v top) t) with
   | Ok rs => Ok rs
   | Raise e2 => Raise (mkExn PlainException ("Search failed: " ++ str_of e2))
   end,
   (t ++ [SearchCall (search_client self) (plain_request query v top)])%list).
Proof.
  unfold search_documents_except, try_except, bind, read_local, ret, raise.
  fold (plain_request query v top).
  rewrite run_search_run. cbn [fst].
  now destruct (match client_search env t (search_client self) _ with
                | Ok hits => format_results hits []
                | Raise e => Raise e
                end).
Qed.

Lemma try_embedding_raises (query : string) (top : Z) (t t1 : Trace) (e : exn) :
  generate_embedding env self query t = (Raise e, t1) ->
  search_documents_try env self query top t = (None, (Raise e, t1)).
Proof. unfold search_documents_try. now intros ->. Qed.

Lemma search_documents_unbound (query : string) (top : Z) (t t1 : Trace) (e : exn) :
  generate_embedding env self query t = (Raise e, t1) ->
  search_documents env self query top t =
  (Raise (mkExn PlainException
            "Search failed: cannot access local variable 'vector_query' where it is not associated with a value"),
   t1).
Proof.
  intros H. rewrite (search_documents_retry _ _ _ _ _ _ (try_embedding_raises _ top _ _ _ H)).
  apply except_unbound.
Qed.

Lemma try_embedded (query : string) (top : Z) (t t1 : Trace) (embedding : pyval) :
  generate_embedding env self query t = (Ok embedding, t1) ->
  search_documents_try env self query top t =
  (Some (query_vector embedding top),
   run_search env self (first_request query (query_vector embedding top) top) t1).
Proof. unfold search_documents_try. now intros ->. Qed.

Lemma format_results_scored (hits : list Document) (acc : list SearchResult) :
  Forall (fun hit => doc_score hit <> None) hits ->
  exists rs, format_results hits acc = Ok rs.
Proof.
  intros H. revert acc. induction H as [|hit hits Hs _ IH]; intros acc; simpl.
  - now exists acc.
  - unfold format_result. destruct (doc_score hit); [apply IH | congruence].
Qed.

Lemma format_results_scoreless (hits : list Document) (acc : list SearchResult) :
  Exists (fun hit => doc_score hit = None) hits ->
  format_results hits acc = Raise (mkExn KeyError "'@search.score'").
Proof.
  intros H. revert acc. induction H as [hit hits Hs | hit hits _ IH]; intros acc; simpl.
  - unfold format_result. now rewrite Hs.
  - destruct (format_result hit) as [r|e] eqn:E; [apply IH |].
    unfold format_result in E. destruct (doc_score hit); [discriminate |].
    now injection E as <-.
Qed.

End Searching.

(** C2. When the embedding is there and the first search, the one with
    the filter, fails for whatever reason (the service raises any
    exception, or a hit it gives has no score to format), and the search
    service answers the second search, the one without the filter, with
    hits that all have a score, then [search_documents] does not raise: it
    returns one dictionary per hit of that second search, in the order of
    the service, each with the score of its hit and those of its fields
    that are in the fixed list. *)
Theorem C2_unfiltered_fallback (env : Env) (self : Plugin) (query : string) (top : Z)
    (t t1 : Trace) (embedding : pyval) (hits : list Document) :
  generate_embedding env self query t = (Ok embedding, t1) ->
  (exists e,
      client_search env t1 (search_client self)
        (first_request query (query_vector embedding top) top) = Raise e)
  \/ (exists hits1,
         client_search env t1 (search_client self)
           (first_request query (query_vector embedding top) top) = Ok hits1 /\
         Exists (fun hit => doc_score hit = None) hits1) ->
  client_search env
    (t1 ++ [SearchCall (search_client self)
              (first_request query (query_vector embedding top) top)])%list
    (search_client self)
    (plain_request query (query_vector embedding top) top) = Ok hits ->
  Forall (fun hit => doc_score hit <> None) hits ->
  exists rs,
    search_documents env self query top t
    = (Ok rs,
       (t1 ++ [SearchCall (search_client self)
                 (first_request query (query_vector embedding top) top);
               SearchCall (search_client self)
                 (plain_request query (query_vector embedding top) top)])%list)
    /\ length rs = length hits
    /\ Forall2 formatted hits rs.
Proof.
  intros He Hfirst Hsecond Hscored.
  destruct (format_results_scored hits [] Hscored) as [rs Hrs].
  destruct (format_results_formatted hits [] rs Hrs) as [rs' [-> HF]].
  exists rs'. split; [| split; [symmetry; exact (Forall2_length HF) | exact HF]].
  assert (Hrun : exists e,
             run_search env self (first_request query (query_vector embedding top) top) t1
             = (Raise e,
                (t1 ++ [SearchCall (search_client self)
                          (first_request query (query_vector embedding top) top)])%list)).
  { rewrite run_search_run.
    destruct Hfirst as [[e ->] | [hits1 [-> Hnone]]].
    - now exists e.
    - rewrite (format_results_scoreless hits1 [] Hnone). now eexists. }
  destruct Hrun as [e Hrun].
  assert (Htry : search_documents_try env self query top t
                 = (Some (query_vector embedding top),
                    (Raise e,
                     (t1 ++ [SearchCall (search_client self)
                               (first_request query (query_vector embedding top) top)])%list)))
    by (rewrite (try_embedded env self _ top _ _ _ He); now rewrite Hrun).
  rewrite (search_documents_retry env self _ _ _ _ _ _ Htry).
  rewrite except_bound, run_search_run, Hsecond, Hrs. cbn [fst].
  now rewrite <- app_assoc.
Qed.

Lemma C2_unfiltered_fallback_witness :
  exists rs,
    search_documents world_filter_rejected sample_plugin "vacation policy" 3 []
    = (Ok rs,
       ([embedding_call sample_plugin "vacation policy"]
        ++ [SearchCall (search_client sample_plugin)
              (first_request "vacation policy" (query_vector sample_embedding 3) 3);
            SearchCall (search_client sample_plugin)
              (plain_request "vacation policy" (query_vector sample_embedding 3) 3)])%list)
    /\ length rs = length sample_hits
    /\ Forall2 formatted sample_hits rs.
Proof.
  apply (C2_unfiltered_fallback world_filter_rejected sample_plugin
           "vacation policy" 3 []).
  - vm_compute. reflexivity.
  - left. eexists. vm_compute. reflexivity.
  - vm_compute. reflexivity.
  - repeat constructor; discriminate.
Defined.

(** C3, amended. When the embedding fails inside [search_documents], the
    handler reads the unassigned variable [vector_query] before it issues
    any search; the error of that read is caught by the handler's own
    [except] clause, so what [search_documents] raises is the plain
    exception whose text is "Search failed: " followed by the text of the
    unassigned-variable error. *)
Theorem C3_embedding_failure_is_wrapped (env : Env) (self : Plugin)
    (query : string) (top : Z) (t t1 : Trace) (e : exn) :
  generate_embedding env self query t = (Raise e, t1) ->
  search_documents env self query top t
  = (Raise (mkExn PlainException ("Search failed: " ++ unbound_vector_query)), t1)
  /\ exists calls, t1 = (t ++ calls)%list /\ forallb is_post calls = true.
Proof.
  intros H. split; [exact (search_documents_unbound env self query top t t1 e H) |].
  destruct query as [|c query].
  - rewrite embedding_empty in H. injection H as _ <-.
    exists []. now rewrite app_nil_r.
  - assert (Hne : String c query <> EmptyString) by discriminate.
    pose proof (embedding_trace env self _ t Hne) as Ht.
    rewrite H in Ht. cbn [snd] in Ht. subst t1.
    now exists [embedding_call self (String c query)].
Qed.

Lemma C3_embedding_failure_is_wrapped_witness :
  search_documents world_embedding_down sample_plugin "vacation policy" 3 []
  = (Raise (mkExn PlainException ("Search failed: " ++ unbound_vector_query)),
     [embedding_call sample_plugin "vacation policy"]).
Proof.
  edestruct (C3_embedding_failure_is_wrapped world_embedding_down sample_plugin
               "vacation policy" 3 []) as [H _].
  - vm_compute. reflexivity.
  - exact H.
Defined.

(** C3 as stated fails: with the embedding service down, what
    [search_documents] raises is not of the class of the
    unassigned-variable error. *)
Lemma C3_counterexample :
  ~ reference_error_surfaces world_embedding_down sample_plugin "vacation policy" 3 [].
Proof.
  intros H.
  edestruct H as [e' [t' [Hs Hc]]].
  - vm_compute. reflexivity.
  - vm_compute in Hs. injection Hs as <- _. discriminate Hc.
Qed.

(** ** rephrase_with_chat_model and query_handbook *)

Section Answering.

Variable env : Env.
Variable self : Plugin.

Lemma rephrase_try_run (content query : string) (t : Trace) :
  rephrase_try env self content query t =
  (chat_outcome (requests_post env t (chat_url self) (api_headers self)
                   (chat_payload content query)),
   (t ++ [chat_call self content query])%list).
Proof.
  unfold rephrase_try, chat_outcome, completion_content, chat_call.
  unfold bind, post, raise_for_status, lift, raise, ret.
  repeat break_match; reflexivity.
Qed.

Lemma rephrase_run (content query : string) (t : Trace) :
  rephrase_with_chat_model env self content query t =
  (Ok match chat_outcome (requests_post env t (chat_url self) (api_headers self)
                            (chat_payload content query)) with
      | Ok text => text
      | Raise _ => content
      end,
   (t ++ [chat_call self content query])%list).
Proof.
  unfold rephrase_with_chat_model, try_except. rewrite rephrase_try_run.
  now destruct (chat_outcome _).
Qed.

Lemma append_sources_section (results : list SearchResult) (i : nat) (response : string) :
  append_sources i results response = response ++ sources_section i results.
Proof.
  revert i response; induction results as [|r rest IH]; intros i response; simpl.
  - now rewrite append_empty_r.
  - now rewrite IH, append_assoc.
Qed.

Lemma query_handbook_caught (query : string) (top : Z) (t t' : Trace) (e : exn) :
  query_handbook_try env self query top t = (Raise e, t') ->
  query_handbook env self query top t = (Ok (error_prefix ++ " " ++ str_of e), t').
Proof. intros H. unfold query_handbook. now rewrite (try_raise _ _ _ _ _ H). Qed.

Lemma query_handbook_returned (query : string) (top : Z) (t t' : Trace) (s : string) :
  query_handbook_try env self query top t = (Ok s, t') ->
  query_handbook env self query top t = (Ok s, t').
Proof. intros H. unfold query_handbook. now rewrite (try_ok _ _ _ _ _ H). Qed.

Lemma try_search_raises (query : string) (top : Z) (t t' : Trace) (e : exn) :
  search_documents env self query top t = (Raise e, t') ->
  query_handbook_try env self query top t = (Raise e, t').
Proof. intros H. unfold query_handbook_try. now rewrite (bind_raise _ _ _ _ _ H). Qed.

Lemma try_nothing_found (query : string) (top : Z) (t t' : Trace) :
  search_documents env self query top t = (Ok [], t') ->
  query_handbook_try env self query top t = (Ok no_information, t').
Proof. intros H. unfold query_handbook_try. now rewrite (bind_ok _ _ _ _ _ H). Qed.

(** The [try] block of [query_handbook] once the search has given results. *)
Lemma try_with_results (query : string) (top : Z) (t t1 : Trace)
    (results : list SearchResult) :
  search_documents env self query top t = (Ok results, t1) ->
  results <> [] ->
  query_handbook_try env self query top t =
  match collect_contents (lower query) results [] with
  | Raise e => (Raise e, t1)
  | Ok all_content =>
      match join_values (nl ++ nl) all_content with
      | Raise e => (Raise e, t1)
      | Ok combined_content =>
          (Ok (select_header query
               ++ match chat_outcome
                          (requests_post env t1 (chat_url self) (api_headers self)
                             (chat_payload combined_content query)) with
                  | Ok text => text
                  | Raise _ => combined_content
                  end
               ++ nl ++ nl ++ "**Sources:**" ++ nl ++ sources_section 1 results),
           (t1 ++ [chat_call self combined_content query])%list)
      end
  end.
Proof.
  intros H Hne. unfold query_handbook_try. rewrite (bind_ok _ _ _ _ _ H).
  destruct results as [|r rest]; [congruence |].
  unfold bind at 1, lift at 1.
  destruct (collect_contents (lower query) (r :: rest) []) as [all_content|e];
    [|reflexivity].
  unfold bind at 1, lift at 1.
  destruct (join_values (nl ++ nl) all_content) as [combined|e]; [|reflexivity].
  unfold bind, ret. rewrite rephrase_run.
  rewrite append_sources_section, !append_assoc. reflexivity.
Qed.

End Answering.

(** C9. When [search_documents] returns no result, [query_handbook]
    returns the fixed text that nothing was found, as a value. *)
Theorem C9_nothing_found (env : Env) (self : Plugin) (query : string) (top : Z)
    (t t' : Trace) :
  search_documents env self query top t = (Ok [], t') ->
  query_handbook env self query top t
  = (Ok "No relevant information found in the Contoso Handbook.", t').
Proof.
  intros H. apply query_handbook_returned. now apply try_nothing_found.
Qed.

Lemma C9_nothing_found_witness :
  fst (query_handbook world_nothing_found sample_plugin "vacation policy" 3 [])
  = Ok "No relevant information found in the Contoso Handbook.".
Proof.
  erewrite (C9_nothing_found world_nothing_found sample_plugin "vacation policy" 3 []).
  - reflexivity.
  - vm_compute. reflexivity.
Defined.

(** C1. [query_handbook] never raises: it always returns a string, and
    whenever its [try] block fails with an exception the string is
    "Error querying the Contoso Handbook:" followed by the text of that
    exception. So it is when the embedding fails, when the formatting of
    the contents fails, and when the search with the filter and the search
    without it both fail: then [search_documents] raises the plain
    exception "Search failed: ..." and [query_handbook] turns it into such
    a string. *)
Theorem C1_query_handbook_never_raises (env : Env) (self : Plugin)
    (query : string) (top : Z) (t : Trace) :
  (exists s t', query_handbook env self query top t = (Ok s, t'))
  /\ (forall e t',
         query_handbook_try env self query top t = (Raise e, t') ->
         query_handbook env self query top t
         = (Ok ("Error querying the Contoso Handbook: " ++ str_of e), t'))
  /\ (forall e t1,
         generate_embedding env self query t = (Raise e, t1) ->
         exists s,
           query_handbook env self query top t = (Ok s, t1) /\
           startswith "Error querying the Contoso Handbook:" s = true)
  /\ (forall v e1 t1 e2 t2,
         search_documents_try env self query top t = (Some v, (Raise e1, t1)) ->
         run_search env self (plain_request query v top) t1 = (Raise e2, t2) ->
         search_documents env self query top t
         = (Raise (mkExn PlainException ("Search failed: " ++ str_of e2)), t2)
         /\ query_handbook env self query top t
            = (Ok ("Error querying the Contoso Handbook: Search failed: " ++ str_of e2),
               t2))
  /\ (forall results t1 e,
         search_documents env self query top t = (Ok results, t1) ->
         results <> [] ->
         collect_contents (lower query) results [] = Raise e \/
         (exists all_content,
             collect_contents (lower query) results [] = Ok all_content /\
             join_values (nl ++ nl) all_content = Raise e) ->
         query_handbook env self query top t
         = (Ok ("Error querying the Contoso Handbook: " ++ str_of e), t1)).
Proof.
  split; [| split; [| split; [| split]]].
  - destruct (query_handbook_try env self query top t) as [[s|e] t'] eqn:E.
    + exists s, t'. now apply query_handbook_returned.
    + exists (error_prefix ++ " " ++ str_of e), t'.
      now apply query_handbook_caught.
  - intros e t' H. exact (query_handbook_caught env self query top t t' e H).
  - intros e t1 H.
    pose proof (search_documents_unbound env self query top t t1 e H) as Hs.
    eexists. split.
    + apply query_handbook_caught, try_search_raises. exact Hs.
    + reflexivity.
  - intros v e1 t1 e2 t2 Htry Hrun.
    assert (Hs : search_documents env self query top t
                 = (Raise (mkExn PlainException ("Search failed: " ++ str_of e2)), t2)).
    { rewrite (search_documents_retry env self _ _ _ _ _ _ Htry), except_bound.
      pose proof (run_search_run env self (plain_request query v top) t1) as Hr.
      rewrite Hrun in Hr. injection Hr as _ Ht. rewrite Hrun, <- Ht. reflexivity. }
    split; [exact Hs |].
    exact (query_handbook_caught env self query top t t2 _
             (try_search_raises env self query top t t2 _ Hs)).
  - intros results t1 e Hs Hne Hfail.
    apply query_handbook_caught.
    rewrite (try_with_results env self query top t t1 results Hs Hne).
    destruct Hfail as [-> | [all_content [-> ->]]]; reflexivity.
Qed.

Lemma C1_query_handbook_never_raises_witness :
  query_handbook world_search_down sample_plugin "vacation policy" 3 []
  = (Ok "Error querying the Contoso Handbook: Search failed: search service is unreachable",
     snd (query_handbook world_search_down sample_plugin "vacation policy" 3 [])).
Proof.
  destruct (C1_query_handbook_never_raises world_search_down sample_plugin
              "vacation policy" 3 []) as (_ & _ & _ & H & _).
  edestruct H as [_ Hq].
  - vm_compute. reflexivity.
  - vm_compute. reflexivity.
  - rewrite Hq. reflexivity.
Defined.

(** C4. [rephrase_with_chat_model] never raises and makes one call. When
    the chat call fails (the request, the status, the decoding or the
    shape of the response) it returns the content it was given; when the
    response holds a generated text it returns that text stripped of
    surrounding white space. When it fails inside [query_handbook], the
    response is the header, the joined contents as they were, and the
    sources. *)
Theorem C4_rephrase_failure_is_silent (env : Env) (self : Plugin) :
  (forall content query t,
      rephrase_with_chat_model env self content query t =
      (Ok match chat_outcome (requests_post env t (chat_url self) (api_headers self)
                                (chat_payload content query)) with
          | Ok text => text
          | Raise _ => content
          end,
       (t ++ [chat_call self content query])%list))
  /\ (forall content query t e t',
         rephrase_try env self content query t = (Raise e, t') ->
         rephrase_with_chat_model env self content query t = (Ok content, t'))
  /\ (forall response decoded generated,
         status_error response = None ->
         json response = Ok decoded ->
         completion_content decoded = Ok (PStr generated) ->
         chat_outcome (Ok response) = Ok (strip generated))
  /\ (forall e, chat_outcome (Raise e) = Raise e)
  /\ (forall response e,
         status_error response = Some e -> chat_outcome (Ok response) = Raise e)
  /\ (forall response e,
         status_error response = None -> json response = Raise e ->
         chat_outcome (Ok response) = Raise e)
  /\ (forall response decoded e,
         status_error response = None -> json response = Ok decoded ->
         completion_content decoded = Raise e ->
         chat_outcome (Ok response) = Raise e)
  /\ (forall query top t results t1 all_content combined e t2,
         search_documents env self query top t = (Ok results, t1) ->
         results <> [] ->
         collect_contents (lower query) results [] = Ok all_content ->
         join_values (nl ++ nl) all_content = Ok combined ->
         rephrase_try env self combined query t1 = (Raise e, t2) ->
         query_handbook env self query top t
         = (Ok (select_header query ++ combined ++ nl ++ nl ++ "**Sources:**" ++ nl
                ++ sources_section 1 results), t2)
         /\ contains combined
              (select_header query ++ combined ++ nl ++ nl ++ "**Sources:**" ++ nl
               ++ sources_section 1 results) = true).
Proof.
  split; [exact (rephrase_run env self) |].
  split.
  { intros content query t e t' H. unfold rephrase_with_chat_model.
    now rewrite (try_raise _ _ _ _ _ H). }
  split.
  { intros response decoded generated Hs Hj Hc. unfold chat_outcome.
    now rewrite Hs, Hj, Hc. }
  split; [reflexivity |].
  split.
  { intros response e Hs. unfold chat_outcome. now rewrite Hs. }
  split.
  { intros response e Hs Hj. unfold chat_outcome. now rewrite Hs, Hj. }
  split.
  { intros response decoded e Hs Hj Hc. unfold chat_outcome. now rewrite Hs, Hj, Hc. }
  intros query top t results t1 all_content combined e t2 Hs Hne Hc Hj Hr.
  split; [| apply contains_app].
  apply query_handbook_returned.
  rewrite (try_with_results env self query top t t1 results Hs Hne), Hc, Hj.
  rewrite rephrase_try_run in Hr. injection Hr as Ho Ht.
  now rewrite Ho, Ht.
Qed.

Lemma C4_rephrase_failure_is_silent_witness :
  fst (query_handbook world_chat_down sample_plugin "vacation policy" 3 [])
  = Ok ("**Contoso Vacation and Time Off Policy:**" ++ nl ++ nl
        ++ "Employees get 15 days PTO. Submit requests via the portal."
        ++ nl ++ nl
        ++ "Use a strong password. Lunch is at noon."
        ++ nl ++ nl ++ "**Sources:**" ++ nl
        ++ "- Time Off" ++ nl
        ++ "- https://contoso.example/handbook" ++ nl).
Proof.
  destruct (C4_rephrase_failure_is_silent world_chat_down sample_plugin)
    as (_ & _ & _ & _ & _ & _ & _ & H).
  edestruct (H "vacation policy" 3%Z []) as [Hq _].
  - vm_compute. reflexivity.
  - discriminate.
  - vm_compute. reflexivity.
  - vm_compute. reflexivity.
  - vm_compute. reflexivity.
  - rewrite Hq. reflexivity.
Defined.

(** ** The header and the narrowing of the contents *)

Lemma select_header_table (query : string) :
  select_header query =
  match first_match header_table (lower query) with
  | Some header => header
  | None => generic_header query
  end.
Proof.
  unfold select_header, header_table, first_match.
  repeat break_match; reflexivity.
Qed.

Lemma first_match_earliest (before after : list (list string * string))
    (keywords : list string) (header query_lower : string) :
  Forall (fun group => any_in (fst group) query_lower = false) before ->
  any_in keywords query_lower = true ->
  first_match (before ++ (keywords, header) :: after) query_lower = Some header.
Proof.
  intros Hb Hk. induction Hb as [|[k h] before Hg _ IH]; simpl.
  - now rewrite Hk.
  - simpl in Hg. now rewrite Hg.
Qed.

Lemma first_match_none (table : list (list string * string)) (query_lower : string) :
  Forall (fun group => any_in (fst group) query_lower = false) table ->
  first_match table query_lower = None.
Proof.
  induction 1 as [|[k h] table Hg _ IH]; simpl; [reflexivity |].
  simpl in Hg. now rewrite Hg.
Qed.

(** C5. The header is a function of the query alone and follows the table
    of the five keyword groups (data security, vacation, confidentiality,
    remote work, benefits) in that order: the group that matches the
    lowered query and has no matching group before it gives the header,
    also when later groups match; a query that matches no group gets the
    generic header that names it. *)
Theorem C5_header_first_match_wins (query : string) :
  select_header query =
  match first_match header_table (lower query) with
  | Some header => header
  | None => generic_header query
  end
  /\ map fst header_table =
     [security_topics; vacation_topics; confidentiality_topics; remote_topics;
      benefits_topics]
  /\ (forall before keywords header after,
         header_table = (before ++ (keywords, header) :: after)%list ->
         Forall (fun group => any_in (fst group) (lower query) = false) before ->
         any_in keywords (lower query) = true ->
         select_header query = header)
  /\ (Forall (fun group => any_in (fst group) (lower query) = false) header_table ->
      select_header query =
      "**Information from Contoso Employee Handbook regarding '" ++ query ++ "':**"
      ++ nl ++ nl).
Proof.
  split; [apply select_header_table |].
  split; [reflexivity |].
  split.
  - intros before keywords header after Ht Hb Hk.
    rewrite select_header_table, Ht.
    now rewrite (first_match_earliest before after keywords header _ Hb Hk).
  - intros Hnone. rewrite select_header_table.
    now rewrite (first_match_none _ _ Hnone).
Qed.

Lemma C5_header_first_match_wins_witness :
  select_header "Vacation days and our Security Policy"
  = "**Contoso Data Security Policy Information:**" ++ nl ++ nl
  /\ select_header "Is leave covered by health insurance?"
     = "**Contoso Vacation and Time Off Policy:**" ++ nl ++ nl
  /\ select_header "Where is the office?"
     = "**Information from Contoso Employee Handbook regarding 'Where is the office?':**"
       ++ nl ++ nl.
Proof.
  split; [| split].
  - destruct (C5_header_first_match_wins "Vacation days and our Security Policy")
      as (_ & _ & H & _).
    apply (H [] security_topics _ (tl header_table)).
    + reflexivity.
    + constructor.
    + reflexivity.
  - destruct (C5_header_first_match_wins "Is leave covered by health insurance?")
      as (_ & _ & H & _).
    apply (H [hd ([], EmptyString) header_table] vacation_topics _ (tl (tl header_table))).
    + reflexivity.
    + repeat constructor.
    + reflexivity.
  - destruct (C5_header_first_match_wins "Where is the office?") as (_ & _ & _ & H).
    apply H. repeat constructor.
Defined.

Lemma extract_empty (s : string) (keywords : list string) :
  extract_relevant_sentences s keywords = EmptyString -> s = EmptyString.
Proof.
  rewrite extract_refines. unfold extract_spec.
  destruct (matching_sentences s keywords) as [|x l]; [exact (fun H => H) |].
  destruct (join ". " (firstn 3 (x :: l))); discriminate.
Qed.

Lemma narrow_string (s : string) (keywords : list string) :
  narrow (VStr s) keywords = Ok (VStr (extract_relevant_sentences s keywords)).
Proof.
  unfold narrow, extract_from.
  destruct (extract_relevant_sentences s keywords) as [|c r] eqn:E; [|reflexivity].
  apply extract_empty in E. now subst s.
Qed.

Lemma collect_contents_each (query_lower : string) (results : list SearchResult)
    (acc all_content : list value) :
  collect_contents query_lower results acc = Ok all_content ->
  exists contents,
    all_content = (acc ++ contents)%list /\
    Forall2 (fun r content => shape_content query_lower r = Ok content)
      results contents.
Proof.
  revert acc; induction results as [|r rest IH]; intros acc; simpl.
  - intros [= <-]. exists []. now rewrite app_nil_r.
  - destruct (shape_content query_lower r) as [content|e] eqn:E; [|discriminate].
    intros H. destruct (IH _ H) as [contents [-> HF]].
    exists (content :: contents). rewrite <- app_assoc. split; [reflexivity |].
    now constructor.
Qed.

(** C6, amended. The narrowing has conditions of its own, narrower than
    the header groups: a query whose lowered text holds "data security" or
    "security policy" has each content replaced by
    [extract_relevant_sentences] of it with the security keywords;
    otherwise a query that holds "vacation" or "pto" has it replaced by
    [extract_relevant_sentences] of it with the vacation keywords; every
    other query, and so every query that matches neither the data security
    group nor the vacation group of the header choice, has its contents
    joined as they are. *)
Theorem C6_narrowing_conditions (query : string) (r : SearchResult) :
  (shape_content (lower query) r =
   let content := get_default (fields r) "content" (VStr "No content available") in
   if any_in ["data security"; "security policy"] (lower query)
   then narrow content security_keywords
   else if any_in ["vacation"; "pto"] (lower query)
        then narrow content vacation_keywords
        else Ok content)
  /\ (forall s keywords,
         narrow (VStr s) keywords = Ok (VStr (extract_relevant_sentences s keywords)))
  /\ (any_in security_topics (lower query) = false ->
      any_in vacation_topics (lower query) = false ->
      shape_content (lower query) r
      = Ok (get_default (fields r) "content" (VStr "No content available")))
  /\ (forall results all_content,
         collect_contents (lower query) results [] = Ok all_content ->
         Forall2 (fun r content => shape_content (lower query) r = Ok content)
           results all_content).
Proof.
  split.
  { unfold shape_content, any_in. cbn [existsb]. now rewrite !orb_false_r. }
  split; [exact narrow_string |].
  split.
  { unfold any_in, security_topics, vacation_topics. cbn [existsb].
    rewrite !orb_false_iff. intros (H1 & H2 & _) (H3 & H4 & _).
    unfold shape_content. now rewrite H1, H2, H3, H4. }
  intros results all_content H.
  destruct (collect_contents_each _ _ _ _ H) as [contents [-> HF]]. exact HF.
Qed.

Lemma C6_narrowing_conditions_witness :
  shape_content (lower "Which benefits do I get?") (hd (mkSearchResult 0 []) sample_results)
  = Ok (VStr "Employees get 15 days PTO. Submit requests via the portal. Unrelated sentence.")
  /\ Forall2 (fun r content => shape_content (lower "How much PTO?") r = Ok content)
       sample_results
       [VStr "Employees get 15 days PTO. Submit requests via the portal.";
        VStr "Use a strong password. Lunch is at noon."].
Proof.
  split.
  - destruct (C6_narrowing_conditions "Which benefits do I get?"
                (hd (mkSearchResult 0 []) sample_results)) as (_ & _ & H & _).
    apply H; reflexivity.
  - destruct (C6_narrowing_conditions "How much PTO?"
                (hd (mkSearchResult 0 []) sample_results)) as (_ & _ & _ & H).
    apply H. reflexivity.
Defined.

(** C6 as stated fails: "information security" is in the data security
    group of the header choice, and the content is not narrowed. *)
Lemma C6_counterexample :
  ~ narrows_by_header_groups "information security"
      {| score := 0;
         fields := [("content", VStr "Use a strong password. Lunch is at noon.")] |}.
Proof.
  unfold narrows_by_header_groups. vm_compute. discriminate.
Qed.

Lemma C7_extract_relevant_sentences_witness :
  extract_relevant_sentences "No matching keywords here." ["zzz"]
  = "No matching keywords here.".
Proof.
  destruct C7_extract_relevant_sentences as (_ & H & _).
  apply H. reflexivity.
Defined.

(** * Further properties of the methods *)

(** ** Substrings *)

Section Substrings.

Lemma startswith_prefix (p s : string) :
  startswith p s = true -> exists r, s = p ++ r.
Proof.
  revert s; induction p as [|c p IH]; intros s H.
  - now exists s.
  - destruct s as [|d s]; simpl in H; [discriminate |].
    apply andb_true_iff in H as [Hc Hp].
    apply Ascii.eqb_eq in Hc; subst d.
    destruct (IH _ Hp) as [r ->]. now exists r.
Qed.

Lemma startswith_nothing (s : string) : startswith EmptyString s = true.
Proof. now destruct s. Qed.

Lemma contains_nothing (s : string) : contains EmptyString s = true.
Proof. rewrite contains_unfold. now rewrite startswith_nothing. Qed.

Lemma contains_inside (p s : string) :
  contains p s = true -> exists a b, s = a ++ p ++ b.
Proof.
  induction s as [|c s IH]; rewrite contains_unfold; intros H.
  - rewrite orb_false_r in H. destruct (startswith_prefix _ _ H) as [r Hr].
    now exists EmptyString, r.
  - apply orb_true_iff in H as [H | H].
    + destruct (startswith_prefix _ _ H) as [r Hr]. now exists EmptyString, r.
    + destruct (IH H) as [a [b ->]]. now exists (String c a), b.
Qed.

Lemma contains_trans (a b c : string) :
  contains a b = true -> contains b c = true -> contains a c = true.
Proof.
  intros Hab Hbc.
  destruct (contains_inside _ _ Hab) as [u [v ->]].
  destruct (contains_inside _ _ Hbc) as [x [y ->]].
  replace (x ++ (u ++ a ++ v) ++ y) with ((x ++ u) ++ a ++ (v ++ y))
    by now rewrite !append_assoc.
  apply contains_app.
Qed.

Lemma has_char_app (c : ascii) (a b : string) :
  has_char c (a ++ b) = has_char c a || has_char c b.
Proof.
  induction a as [|x a IH]; simpl; [reflexivity |].
  now rewrite IH, orb_assoc.
Qed.

Lemma has_char_inside (c : ascii) (p s : string) :
  contains p s = true -> has_char c p = true -> has_char c s = true.
Proof.
  intros H Hp. destruct (contains_inside _ _ H) as [a [b ->]].
  rewrite !has_char_app, Hp. now rewrite orb_true_r.
Qed.

Lemma lower_char_period (c : ascii) :
  Ascii.eqb (lower_char c) "." = Ascii.eqb c ".".
Proof. destruct c as [[] [] [] [] [] [] [] []]; reflexivity. Qed.

Lemma has_period_lower (s : string) : has_char "." (lower s) = has_char "." s.
Proof.
  induction s as [|c s IH]; simpl; [reflexivity |].
  now rewrite lower_char_period, IH.
Qed.

Lemma split_head_prefix (sep : ascii) (s : string) :
  startswith (hd EmptyString (split sep s)) s = true.
Proof.
  induction s as [|c s IH]; [reflexivity |].
  destruct (Ascii.eqb c sep) eqn:E.
  - simpl. now rewrite E.
  - rewrite (split_cons_other _ _ _ E). simpl.
    now rewrite Ascii.eqb_refl, IH.
Qed.

Lemma startswith_contains (p s : string) :
  startswith p s = true -> contains p s = true.
Proof. intros H. rewrite contains_unfold. now rewrite H. Qed.

Lemma contains_later (p s : string) (c : ascii) :
  contains p s = true -> contains p (String c s) = true.
Proof. intros H. rewrite contains_unfold, H. apply orb_true_r. Qed.

Lemma split_piece_inside (sep : ascii) (s p : string) :
  In p (split sep s) -> contains p s = true.
Proof.
  revert p; induction s as [|c s IH]; intros p H.
  - destruct H as [<- | []]. reflexivity.
  - destruct (Ascii.eqb c sep) eqn:E.
    + simpl in H. rewrite E in H. destruct H as [<- | H].
      * apply contains_nothing.
      * apply contains_later, IH, H.
    + rewrite (split_cons_other _ _ _ E) in H.
      pose proof (split_head_prefix sep s) as Hp.
      destruct (split sep s) as [|h t] eqn:Es;
        [now destruct (split_not_nil sep s) |].
      simpl in H, Hp. destruct H as [<- | H].
      * apply startswith_contains. simpl. now rewrite Ascii.eqb_refl.
      * apply contains_later, IH. now right.
Qed.

Lemma lstrip_suffix (s : string) : exists a, s = a ++ lstrip s.
Proof.
  induction s as [|c s [a IH]]; simpl.
  - now exists EmptyString.
  - destruct (is_space c).
    + exists (String c a). simpl. now rewrite <- IH.
    + now exists EmptyString.
Qed.

Lemma rstrip_prefix (s : string) : exists b, s = rstrip s ++ b.
Proof.
  induction s as [|c s [b IH]]; simpl.
  - now exists EmptyString.
  - destruct (rstrip s) as [|x r].
    + destruct (is_space c).
      * now exists (String c s).
      * exists s. reflexivity.
    + exists b. simpl in *. now rewrite <- IH.
Qed.

Lemma strip_inside (s : string) : contains (strip s) s = true.
Proof.
  unfold strip.
  destruct (lstrip_suffix s) as [a Ha].
  destruct (rstrip_prefix (lstrip s)) as [b Hb].
  rewrite Ha at 2. rewrite Hb at 2. apply contains_app.
Qed.

Lemma strip_blank (s : string) : blank s = true -> strip s = EmptyString.
Proof.
  unfold strip. induction s as [|c s IH]; intros H; [reflexivity |].
  simpl in H. apply andb_true_iff in H as [Hc Hs].
  simpl. rewrite Hc. now apply IH.
Qed.

Lemma count_char_app (c : ascii) (a b : string) :
  count_char c (a ++ b) = count_char c a + count_char c b.
Proof.
  induction a as [|x a IH]; simpl; [reflexivity |].
  rewrite IH. lia.
Qed.

Lemma count_char_absent (c : ascii) (s : string) :
  has_char c s = false -> count_char c s = 0.
Proof.
  induction s as [|a s IH]; simpl; [reflexivity |].
  intros H. apply orb_false_iff in H as [Ha Hs]. now rewrite Ha, IH.
Qed.

End Substrings.

(** ** extract_relevant_sentences: what it keeps and what it builds *)

Section ExtractMore.

Variable keywords : list string.

Lemma matching_inside (content : string) :
  Forall (fun s => contains s content = true) (matching_sentences content keywords).
Proof.
  apply Forall_forall. intros s Hs.
  apply filter_In in Hs as [Hin _].
  apply in_map_iff in Hin as [p [<- Hp]].
  exact (contains_trans _ _ _ (strip_inside p) (split_piece_inside _ _ _ Hp)).
Qed.

Lemma join_periods (x : string) (l : list string) :
  Forall (fun s => has_char "." s = false) (x :: l) ->
  count_char "." (join ". " (x :: l) ++ ".") = length (x :: l).
Proof.
  revert x; induction l as [|y l IH]; intros x H; inversion H as [|? ? Hx Hl]; subst.
  - simpl join. rewrite count_char_app, (count_char_absent _ _ Hx). reflexivity.
  - change (join ". " (x :: y :: l)) with (x ++ ". " ++ join ". " (y :: l)).
    rewrite !append_assoc, (count_char_app _ x), (count_char_absent _ _ Hx).
    change (count_char "." (". " ++ join ". " (y :: l) ++ "."))
      with (S (count_char "." (join ". " (y :: l) ++ "."))).
    now rewrite (IH y Hl).
Qed.

(** The two outcomes of [extract_relevant_sentences]. *)
Lemma extract_shape (content : string) :
  extract_relevant_sentences content keywords = content \/
  exists x l,
    extract_relevant_sentences content keywords = join ". " (x :: l) ++ "." /\
    (length (x :: l) <= 3)%nat /\
    Forall (kept keywords) (x :: l) /\
    Forall (fun s => contains s content = true) (x :: l).
Proof.
  rewrite extract_refines. unfold extract_spec.
  pose proof (matching_kept keywords content) as Hk.
  pose proof (matching_inside content) as Hi.
  destruct (matching_sentences content keywords) as [|x l]; [now left |].
  right. exists x, (firstn 2 l).
  split; [reflexivity |].
  split; [exact (firstn_le_length 3 (x :: l)) |].
  split; [exact (Forall_take _ 3 _ Hk) | exact (Forall_take _ 3 _ Hi)].
Qed.

Lemma no_match_unchanged (content : string) :
  (forall s, has_char "." s = false -> any_keyword_in keywords s = false) ->
  extract_relevant_sentences content keywords = content.
Proof.
  intros H. destruct (extract_shape content) as [E | [x [l [_ [_ [Hk _]]]]]];
    [exact E |].
  inversion Hk as [|? ? [Hx [_ Hhit]] _]; subst.
  rewrite (H x Hx) in Hhit. discriminate.
Qed.

End ExtractMore.

(** X1. [extract_relevant_sentences] never invents text: it returns the
    content as it is, or at most three sentences joined by a period and a
    space and closed by a period, each of which occurs in the content,
    holds no period, has no white space around it and holds a keyword. *)
Theorem X1_extract_keeps_text_of_content (content : string) (keywords : list string) :
  extract_relevant_sentences content keywords = content \/
  exists l,
    l <> [] /\ (length l <= 3)%nat /\
    extract_relevant_sentences content keywords = join ". " l ++ "." /\
    Forall (fun s =>
              contains s content = true /\ has_char "." s = false /\
              strip s = s /\ any_keyword_in keywords s = true) l.
Proof.
  destruct (extract_shape keywords content) as [E | [x [l [E [Hlen [Hk Hi]]]]]];
    [now left | right].
  exists (x :: l). split; [discriminate |]. split; [exact Hlen |].
  split; [exact E |].
  apply Forall_forall. intros s Hs.
  rewrite Forall_forall in Hk, Hi.
  destruct (Hk s Hs) as [H1 [H2 H3]]. now rewrite (Hi s Hs).
Qed.

(** X2. A result of [extract_relevant_sentences] that is not the content
    itself ends with a period and holds one period for each sentence it
    kept: at least one and at most three. *)
Theorem X2_extract_counts_periods (content : string) (keywords : list string) :
  extract_relevant_sentences content keywords = content \/
  ((1 <= count_char "." (extract_relevant_sentences content keywords) <= 3)%nat /\
   exists body, extract_relevant_sentences content keywords = body ++ ".").
Proof.
  destruct (extract_shape keywords content) as [E | [x [l [E [Hlen [Hk _]]]]]];
    [now left | right].
  rewrite E, (join_periods x l (kept_no_period keywords _ Hk)).
  split; [simpl in *; lia | now exists (join ". " (x :: l))].
Qed.

(** X3. A keyword that holds a period can never match, since no sentence
    holds one: when every keyword holds a period, and so also when there
    is no keyword at all, the content comes back unchanged. *)
Theorem X3_extract_period_keywords (content : string) (keywords : list string) :
  Forall (fun k => has_char "." k = true) keywords ->
  extract_relevant_sentences content keywords = content.
Proof.
  intros H. apply no_match_unchanged. intros s Hs.
  unfold any_keyword_in. induction H as [|k l Hk _ IH]; [reflexivity |].
  cbn [existsb]. rewrite IH, orb_false_r.
  destruct (contains (lower k) (lower s)) eqn:E; [|reflexivity].
  rewrite <- has_period_lower in Hk, Hs.
  rewrite (has_char_inside _ _ _ E Hk) in Hs. discriminate.
Qed.

Lemma X3_extract_period_keywords_witness :
  extract_relevant_sentences "See section 2.1 of the guide. Lunch is at noon."
    ["2.1"; "e.g."]
  = "See section 2.1 of the guide. Lunch is at noon.".
Proof.
  apply X3_extract_period_keywords. repeat constructor.
Defined.

(** X4. An empty keyword matches every sentence: when the keywords hold
    the empty string, the result is made of the first three pieces of the
    content between periods, stripped, whatever the other keywords are. *)
Theorem X4_extract_empty_keyword (content : string) (keywords : list string) :
  In EmptyString keywords ->
  extract_relevant_sentences content keywords
  = join ". " (firstn 3 (map strip (split "." content))) ++ ".".
Proof.
  intros H. rewrite extract_refines. unfold extract_spec, matching_sentences.
  assert (Hall : forall l, List.filter (any_keyword_in keywords) l = l).
  { induction l as [|s l IH]; simpl; [reflexivity |].
    assert (Hs : any_keyword_in keywords s = true).
    { apply existsb_exists. exists EmptyString. split; [exact H |].
      apply contains_nothing. }
    now rewrite Hs, IH. }
  rewrite Hall.
  destruct (split "." content) as [|p ps] eqn:E;
    [now destruct (split_not_nil "." content) | reflexivity].
Qed.

Lemma X4_extract_empty_keyword_witness :
  extract_relevant_sentences "One. Two. Three. Four." ["zzz"; EmptyString]
  = join ". " (firstn 3 (map strip (split "." "One. Two. Three. Four."))) ++ ".".
Proof.
  apply X4_extract_empty_keyword. right. now left.
Defined.

(** ** search_documents: its calls, its results and its errors *)

Section SearchingMore.

Variable env : Env.
Variable self : Plugin.

Lemma embedding_trace_any (query : string) (t : Trace) :
  snd (generate_embedding env self query t) = t \/
  snd (generate_embedding env self query t) = (t ++ [embedding_call self query])%list.
Proof.
  destruct query as [|c query].
  - left. reflexivity.
  - right. apply embedding_trace. discriminate.
Qed.

(** The traces that [search_documents] can leave. *)
Lemma search_documents_traces (query : string) (top : Z) (t : Trace) :
  let t1 := snd (generate_embedding env self query t) in
  snd (search_documents env self query top t) = t1 \/
  exists v,
    snd (search_documents env self query top t)
    = (t1 ++ [SearchCall (search_client self) (first_request query v top)])%list \/
    snd (search_documents env self query top t)
    = (t1 ++ [SearchCall (search_client self) (first_request query v top);
              SearchCall (search_client self) (plain_request query v top)])%list.
Proof.
  cbn zeta.
  destruct (generate_embedding env self query t) as [[embedding|e] t1] eqn:E;
    cbn [snd].
  - right. exists (query_vector embedding top).
    unfold search_documents. rewrite (try_embedded env self _ top _ _ _ E), run_search_run.
    destruct (match client_search env t1 _ _ with
              | Ok hits => format_results hits []
              | Raise e => Raise e
              end) as [rs|e].
    + now left.
    + right. rewrite except_bound. cbn [snd]. now rewrite <- app_assoc.
  - left. now rewrite (search_documents_unbound env self query top t t1 e E).
Qed.

Lemma dict_set_new {V : Type} (d : list (string * V)) (key : string) (v : V) :
  ~ In key (map fst d) -> dict_set d key v = (d ++ [(key, v)])%list.
Proof.
  induction d as [|[k w] d IH]; simpl; intros H; [reflexivity |].
  destruct (String.eqb k key) eqn:E.
  - apply String.eqb_eq in E. tauto.
  - rewrite IH by tauto. reflexivity.
Qed.

Lemma copied_keys (hit : Document) (names : list string) (acc : list (string * value)) :
  NoDup names ->
  (forall n, In n names -> ~ In n (map fst acc)) ->
  map fst (fold_left (copy_field hit) names acc)
  = (map fst acc ++ List.filter (has_field hit) names)%list.
Proof.
  intros Hnd. revert acc. induction Hnd as [|n names Hn _ IH]; intros acc Hacc; simpl.
  - now rewrite app_nil_r.
  - destruct (dict_get (doc_fields hit) n) as [v|] eqn:Ev.
    + assert (Hc : copy_field hit acc n = dict_set acc n v)
        by (unfold copy_field; now rewrite Ev).
      assert (Hf : has_field hit n = true) by (unfold has_field; now rewrite Ev).
      rewrite Hc, Hf, dict_set_new by (apply Hacc; now left).
      rewrite IH.
      * rewrite map_app, <- app_assoc. reflexivity.
      * intros m Hm. rewrite map_app, in_app_iff. simpl.
        intros [Hin | [<- | []]]; [|contradiction].
        apply (Hacc m); [now right | exact Hin].
    + assert (Hc : copy_field hit acc n = acc)
        by (unfold copy_field; now rewrite Ev).
      assert (Hf : has_field hit n = false) by (unfold has_field; now rewrite Ev).
      rewrite Hc, Hf. apply IH. intros m Hm. apply Hacc. now right.
Qed.

Lemma result_fields_nodup : NoDup result_fields.
Proof.
  unfold result_fields.
  repeat (constructor; [simpl; intuition discriminate |]). constructor.
Qed.

End SearchingMore.

(** X5. Whatever goes wrong, [search_documents] raises nothing but the
    plain exception whose text starts with "Search failed: ". *)
Theorem X5_search_documents_error_form (env : Env) (self : Plugin)
    (query : string) (top : Z) (t t' : Trace) (e : exn) :
  search_documents env self query top t = (Raise e, t') ->
  class_of e = PlainException /\ startswith "Search failed: " (str_of e) = true.
Proof.
  unfold search_documents.
  destruct (search_documents_try env self query top t) as [vq [[rs|e0] t1]];
    [discriminate |].
  destruct vq as [v|].
  - rewrite except_bound.
    destruct (fst (run_search env self (plain_request query v top) t1));
      [discriminate |].
    intros [= <- _]. now split.
  - rewrite except_unbound. intros [= <- _]. now split.
Qed.

Lemma X5_search_documents_error_form_witness :
  class_of (mkExn PlainException "Search failed: search service is unreachable")
  = PlainException /\
  startswith "Search failed: "
    (str_of (mkExn PlainException "Search failed: search service is unreachable"))
  = true.
Proof.
  eapply (X5_search_documents_error_form world_search_down sample_plugin
            "vacation policy" 3 []).
  vm_compute. reflexivity.
Defined.

(** X6. [search_documents] makes at most three calls after the trace it
    starts from, in this order: the POST of the embedding, if it makes
    one, the search with the filter derived from the query, and,
    only after that one, the same search with the same vector, text and
    count but without a filter. When the embedding fails it makes no
    search at all. *)
Theorem X6_search_documents_calls (env : Env) (self : Plugin)
    (query : string) (top : Z) (t : Trace) :
  (snd (generate_embedding env self query t) = t \/
   snd (generate_embedding env self query t)
   = (t ++ [embedding_call self query])%list)
  /\ (snd (search_documents env self query top t)
      = snd (generate_embedding env self query t) \/
      exists v,
        snd (search_documents env self query top t)
        = (snd (generate_embedding env self query t)
           ++ [SearchCall (search_client self) (first_request query v top)])%list \/
        snd (search_documents env self query top t)
        = (snd (generate_embedding env self query t)
           ++ [SearchCall (search_client self) (first_request query v top);
               SearchCall (search_client self) (plain_request query v top)])%list)
  /\ (forall e t1,
         generate_embedding env self query t = (Raise e, t1) ->
         snd (search_documents env self query top t) = t1).
Proof.
  split; [apply embedding_trace_any |].
  split; [apply (search_documents_traces env self query top t) |].
  intros e t1 H. now rewrite (search_documents_unbound env self query top t t1 e H).
Qed.

Lemma X6_search_documents_calls_witness :
  snd (search_documents world_embedding_down sample_plugin "vacation policy" 3 [])
  = [embedding_call sample_plugin "vacation policy"].
Proof.
  destruct (X6_search_documents_calls world_embedding_down sample_plugin
              "vacation policy" 3 []) as (_ & _ & H).
  eapply H. vm_compute. reflexivity.
Defined.

(** X7. When the embedding is there and the search with the filter gives
    hits that all have a score, [search_documents] returns them formatted,
    in their order, after that one search: no second search is made. *)
Theorem X7_filtered_search_suffices (env : Env) (self : Plugin)
    (query : string) (top : Z) (t t1 : Trace) (embedding : pyval)
    (hits : list Document) :
  generate_embedding env self query t = (Ok embedding, t1) ->
  client_search env t1 (search_client self)
    (first_request query (query_vector embedding top) top) = Ok hits ->
  Forall (fun hit => doc_score hit <> None) hits ->
  exists rs,
    search_documents env self query top t
    = (Ok rs,
       (t1 ++ [SearchCall (search_client self)
                 (first_request query (query_vector embedding top) top)])%list)
    /\ Forall2 formatted hits rs.
Proof.
  intros He Hs Hall.
  destruct (format_results_scored hits [] Hall) as [rs Hrs].
  exists rs. split.
  - apply (search_documents_ok env self query top t _ (Some (query_vector embedding top))).
    rewrite (try_embedded env self _ top _ _ _ He), run_search_run.
    now rewrite Hs, Hrs.
  - destruct (format_results_formatted hits [] rs Hrs) as [rs' [-> HF]]. exact HF.
Qed.

Lemma X7_filtered_search_suffices_witness :
  exists rs,
    search_documents world_ok sample_plugin "vacation policy" 3 []
    = (Ok rs,
       ([embedding_call sample_plugin "vacation policy"]
        ++ [SearchCall (search_client sample_plugin)
              (first_request "vacation policy" (query_vector sample_embedding 3) 3)])%list)
    /\ Forall2 formatted sample_hits rs.
Proof.
  apply (X7_filtered_search_suffices world_ok sample_plugin "vacation policy" 3 []).
  - vm_compute. reflexivity.
  - vm_compute. reflexivity.
  - repeat constructor; discriminate.
Defined.

(** X8. The formatting of the hits is all or nothing: when every hit has
    a score there is one dictionary for each hit, in the same order; one
    hit without a score makes the whole formatting raise [KeyError] for
    ["@search.score"], and the hits before it are lost. *)
Theorem X8_format_results_all_or_nothing (hits : list Document) :
  (Forall (fun hit => doc_score hit <> None) hits ->
   exists rs,
     format_results hits [] = Ok rs /\ length rs = length hits /\
     Forall2 formatted hits rs)
  /\ (Exists (fun hit => doc_score hit = None) hits ->
      format_results hits [] = Raise (mkExn KeyError "'@search.score'")).
Proof.
  split.
  - intros H. destruct (format_results_scored hits [] H) as [rs Hrs].
    destruct (format_results_formatted hits [] rs Hrs) as [rs' [-> HF]].
    exists rs'. split; [exact Hrs |]. split; [|exact HF].
    symmetry. exact (Forall2_length HF).
  - apply format_results_scoreless.
Qed.

Lemma X8_format_results_all_or_nothing_witness :
  (exists rs,
      format_results sample_hits [] = Ok rs /\ length rs = length sample_hits /\
      Forall2 formatted sample_hits rs)
  /\ format_results scoreless_hits [] = Raise (mkExn KeyError "'@search.score'").
Proof.
  split.
  - apply (proj1 (X8_format_results_all_or_nothing sample_hits)).
    repeat constructor; discriminate.
  - apply (proj2 (X8_format_results_all_or_nothing scoreless_hits)).
    right. now left.
Defined.

(** X9. The keys of a formatted hit, beside its score, are the fields of
    the fixed list that the hit has, in the order of that list and each
    once: no other field of the hit is copied. *)
Theorem X9_format_result_keys (hit : Document) (r : SearchResult) :
  format_result hit = Ok r ->
  map fst (fields r) = List.filter (has_field hit) result_fields.
Proof.
  unfold format_result. destruct (doc_score hit) as [s|]; [|discriminate].
  intros H.
  assert (Hf : fields r = fold_left (copy_field hit) result_fields [])
    by (now injection H as <-).
  rewrite Hf.
  exact (copied_keys hit result_fields [] result_fields_nodup (fun _ _ H0 => H0)).
Qed.

Lemma X9_format_result_keys_witness :
  map fst (fields (hd (mkSearchResult 0 []) sample_results))
  = List.filter (has_field (hd (mkDocument None []) sample_hits)) result_fields.
Proof.
  apply X9_format_result_keys. reflexivity.
Defined.

(** ** The filter of the search and the header of the answer *)

Lemma security_topic_has_security (query_lower : string) :
  any_in security_topics query_lower = true ->
  contains "security" query_lower = true.
Proof.
  unfold any_in, security_topics. cbn [existsb]. rewrite orb_false_r.
  intros H. apply orb_true_iff in H as [H | H];
    [| apply orb_true_iff in H as [H | H]];
    (eapply contains_trans; [| exact H]; reflexivity).
Qed.

Lemma security_header_topic (query : string) :
  select_header query = security_header ->
  any_in security_topics (lower query) = true.
Proof.
  unfold select_header, generic_header, security_header.
  destruct (any_in security_topics (lower query)); [reflexivity |].
  repeat break_match; simpl; discriminate.
Qed.

(** X10. An answer that carries the data security header was searched
    with the security filter: the keywords of that header group all hold
    the word the filter is chosen by. *)
Theorem X10_security_header_security_filter (query : string) :
  select_header query = "**Contoso Data Security Policy Information:**" ++ nl ++ nl ->
  search_filter_of (lower query)
  = Some "search.ismatch('security OR data OR confidential OR privacy', 'content')".
Proof.
  intros H. apply security_header_topic, security_topic_has_security in H.
  unfold search_filter_of. now rewrite H.
Qed.

Lemma X10_security_header_security_filter_witness :
  search_filter_of (lower "Our Information Security rules")
  = Some "search.ismatch('security OR data OR confidential OR privacy', 'content')".
Proof.
  apply X10_security_header_security_filter. reflexivity.
Defined.

(** ** generate_embedding: what it raises *)

(** X11. [generate_embedding] raises in two ways only: [ValueError] for
    the empty text, before any call, and, for any other text, after its
    one call, a plain exception whose text starts with
    "Failed to generate embedding: ". *)
Theorem X11_generate_embedding_error_forms (env : Env) (self : Plugin)
    (text : string) (t t' : Trace) (e : exn) :
  generate_embedding env self text t = (Raise e, t') ->
  (text = EmptyString /\ e = mkExn ValueError "Input text cannot be empty" /\ t' = t)
  \/ (text <> EmptyString /\ class_of e = PlainException /\
      startswith "Failed to generate embedding: " (str_of e) = true /\
      t' = (t ++ [embedding_call self text])%list).
Proof.
  intros H. destruct text as [|c text].
  - left. rewrite embedding_empty in H. injection H as <- <-. now repeat split.
  - right. assert (Hne : String c text <> EmptyString) by discriminate.
    pose proof (embedding_trace env self _ t Hne) as Ht.
    rewrite H in Ht. cbn [snd] in Ht.
    destruct (embedding_raises env self _ t t' e H) as [[Habs _] | [_ [Hc Hs]]];
      [discriminate |].
    now repeat split.
Qed.

Lemma X11_generate_embedding_error_forms_witness :
  exists e,
    fst (generate_embedding world_embedding_down sample_plugin "vacation policy" [])
    = Raise e /\
    class_of e = PlainException /\
    startswith "Failed to generate embedding: " (str_of e) = true.
Proof.
  eexists. split; [vm_compute; reflexivity |].
  edestruct (X11_generate_embedding_error_forms world_embedding_down sample_plugin
               "vacation policy" []) as [[Habs _] | [_ [Hc [Hs _]]]].
  - vm_compute. reflexivity.
  - discriminate Habs.
  - split; [exact Hc | exact Hs].
Defined.

(** X12. For a text that is not empty, the first failure among the call,
    the status of the response, the decoding of its body and the reading
    of [data], of its first item and of [embedding] is raised again as a
    plain exception whose text is "Failed to generate embedding: "
    followed by the text of that failure; so a body whose [data] is an
    empty list gives "... list index out of range". *)
Theorem X12_generate_embedding_wraps (env : Env) (self : Plugin)
    (text : string) (t : Trace) (e0 : exn) :
  text <> EmptyString ->
  let posted :=
    requests_post env t (embedding_url self) (api_headers self)
      (PDict [("input", PStr text)]) in
  (posted = Raise e0
   \/ (exists response,
          posted = Ok response /\
          (status_error response = Some e0
           \/ (status_error response = None /\
               (json response = Raise e0
                \/ exists embedding_data,
                    json response = Ok embedding_data /\
                    (getitem_str embedding_data "data" = Raise e0
                     \/ exists data,
                         getitem_str embedding_data "data" = Ok data /\
                         (getitem_int data 0 = Raise e0
                          \/ exists first,
                              getitem_int data 0 = Ok first /\
                              getitem_str first "embedding" = Raise e0))))))) ->
  generate_embedding env self text t
  = (Raise (mkExn PlainException ("Failed to generate embedding: " ++ str_of e0)),
     (t ++ [embedding_call self text])%list).
Proof.
  intros Hne posted H. subst posted.
  destruct text as [|c text]; [congruence |].
  unfold generate_embedding, embedding_call. cbn [truthy negb].
  unfold try_except, bind, post, raise_for_status, lift, raise, ret.
  destruct H as [-> | [response [-> H]]]; [reflexivity |].
  destruct H as [-> | [-> H]]; [reflexivity |].
  destruct H as [-> | [embedding_data [-> H]]]; [reflexivity |].
  destruct H as [-> | [data [-> H]]]; [reflexivity |].
  destruct H as [-> | [first [-> ->]]]; reflexivity.
Qed.

Lemma X12_generate_embedding_wraps_witness :
  generate_embedding world_no_data sample_plugin "vacation policy" []
  = (Raise (mkExn PlainException
              "Failed to generate embedding: list index out of range"),
     [embedding_call sample_plugin "vacation policy"])
  /\ generate_embedding world_bad_status sample_plugin "vacation policy" []
     = (Raise (mkExn PlainException "Failed to generate embedding: 401 Client Error"),
        [embedding_call sample_plugin "vacation policy"]).
Proof.
  split.
  - apply (X12_generate_embedding_wraps world_no_data sample_plugin "vacation policy" []
             (mkExn IndexError "list index out of range")); [discriminate |].
    right. eexists. split; [reflexivity |]. right. split; [reflexivity |].
    right. eexists. split; [reflexivity |].
    right. eexists. split; [reflexivity |]. now left.
  - apply (X12_generate_embedding_wraps world_bad_status sample_plugin
             "vacation policy" []
             (mkExn (LibraryError "HTTPError") "401 Client Error")); [discriminate |].
    right. eexists. split; [reflexivity |]. now left.
Defined.

(** ** query_handbook: contents, chat call and sources *)

Section AnsweringMore.

Variable env : Env.
Variable self : Plugin.

(** The trace of [query_handbook] is that of [search_documents], with at
    most the chat call after it. *)
Lemma query_handbook_trace (query : string) (top : Z) (t : Trace) :
  snd (query_handbook env self query top t)
  = snd (search_documents env self query top t) \/
  exists combined,
    snd (query_handbook env self query top t)
    = (snd (search_documents env self query top t)
       ++ [chat_call self combined query])%list.
Proof.
  destruct (search_documents env self query top t) as [[results|e] t1] eqn:E;
    cbn [snd].
  - destruct results as [|r rest].
    + left. now rewrite (query_handbook_returned env self _ _ _ _ _
                           (try_nothing_found env self _ _ _ _ E)).
    + assert (Hne : r :: rest <> []) by discriminate.
      pose proof (try_with_results env self query top t t1 _ E Hne) as Ht.
      destruct (collect_contents (lower query) (r :: rest) []) as [all_content|e].
      * destruct (join_values (nl ++ nl) all_content) as [combined|e].
        -- right. exists combined.
           now rewrite (query_handbook_returned env self _ _ _ _ _ Ht).
        -- left. now rewrite (query_handbook_caught env self _ _ _ _ _ Ht).
      * left. now rewrite (query_handbook_caught env self _ _ _ _ _ Ht).
  - left. now rewrite (query_handbook_caught env self _ _ _ _ _
                         (try_search_raises env self _ _ _ _ _ E)).
Qed.

Lemma shape_content_null (query_lower : string) (r : SearchResult) :
  dict_get (fields r) "content" = Some VNone ->
  shape_content query_lower r = Ok VNone \/
  shape_content query_lower r
  = Raise (mkExn AttributeError "'NoneType' object has no attribute 'split'").
Proof.
  intros H. unfold shape_content, get_default. rewrite H.
  repeat break_match; auto.
Qed.

Lemma shape_content_error (query_lower : string) (r : SearchResult) (e : exn) :
  shape_content query_lower r = Raise e -> class_of e = AttributeError.
Proof.
  unfold shape_content, narrow, extract_from.
  repeat break_match; intros [= <-]; try discriminate; reflexivity.
Qed.

Lemma collect_contents_null (query_lower : string) (r : SearchResult)
    (results : list SearchResult) (acc : list value) :
  dict_get (fields r) "content" = Some VNone ->
  In VNone acc \/ In r results ->
  (exists e, collect_contents query_lower results acc = Raise e /\
             class_of e = AttributeError)
  \/ (exists all_content,
         collect_contents query_lower results acc = Ok all_content /\
         In VNone all_content).
Proof.
  intros Hr. revert acc. induction results as [|r0 rest IH]; intros acc H; simpl.
  - right. exists acc. split; [reflexivity |]. destruct H as [H | []]. exact H.
  - destruct (shape_content query_lower r0) as [content|e] eqn:E.
    + apply IH. destruct H as [H | [<- | H]].
      * left. apply in_or_app. now left.
      * left. apply in_or_app. right.
        destruct (shape_content_null query_lower r0 Hr) as [H0 | H0];
          rewrite H0 in E; [injection E as <-; now left | discriminate].
      * now right.
    + left. exists e. split; [reflexivity |].
      exact (shape_content_error _ _ _ E).
Qed.

Lemma join_values_null (sep : string) (items : list value) :
  In VNone items ->
  exists e, join_values sep items = Raise e /\ class_of e = TypeError.
Proof.
  unfold join_values. generalize 0%nat.
  induction items as [|v items IH]; intros i H; [destruct H |].
  destruct v as [|s0].
  - simpl. eexists. split; reflexivity.
  - destruct H as [H | H]; [discriminate |].
    destruct (IH (S i) H) as [e [He Hc]]. simpl.
    destruct (join_values_from (S i) items); [discriminate |].
    injection He as <-. now exists e0.
Qed.

Lemma placeholders (results : list SearchResult) (i : nat) :
  Forall anonymous results ->
  sources_section i results = placeholder_lines i (length results).
Proof.
  intros H. revert i. induction H as [|r rest [Ht Hu] _ IH]; intros i; simpl.
  - reflexivity.
  - unfold source_line. now rewrite Ht, Hu, IH.
Qed.

End AnsweringMore.

(** X13. [query_handbook] calls the chat service only when there are
    results whose contents could be collected and joined, and then once,
    with the joined contents: after a failed search, after an empty
    result and after a failure of the contents it leaves the trace of
    [search_documents] as it is. *)
Theorem X13_chat_only_with_contents (env : Env) (self : Plugin)
    (query : string) (top : Z) (t t1 : Trace) :
  (forall e,
      search_documents env self query top t = (Raise e, t1) ->
      snd (query_handbook env self query top t) = t1)
  /\ (search_documents env self query top t = (Ok [], t1) ->
      snd (query_handbook env self query top t) = t1)
  /\ (forall results e,
         search_documents env self query top t = (Ok results, t1) ->
         collect_contents (lower query) results [] = Raise e \/
         (exists all_content,
             collect_contents (lower query) results [] = Ok all_content /\
             join_values (nl ++ nl) all_content = Raise e) ->
         snd (query_handbook env self query top t) = t1)
  /\ (forall results all_content combined,
         search_documents env self query top t = (Ok results, t1) ->
         results <> [] ->
         collect_contents (lower query) results [] = Ok all_content ->
         join_values (nl ++ nl) all_content = Ok combined ->
         snd (query_handbook env self query top t)
         = (t1 ++ [chat_call self combined query])%list).
Proof.
  split; [| split; [| split]].
  - intros e H.
    now rewrite (query_handbook_caught env self _ _ _ _ _
                   (try_search_raises env self _ _ _ _ _ H)).
  - intros H.
    now rewrite (query_handbook_returned env self _ _ _ _ _
                   (try_nothing_found env self _ _ _ _ H)).
  - intros results e H Hfail.
    destruct results as [|r rest].
    { destruct Hfail as [Hc | [all_content [Hc Hj]]]; [discriminate |].
      injection Hc as <-. discriminate. }
    assert (Hne : r :: rest <> []) by discriminate.
    pose proof (try_with_results env self query top t t1 _ H Hne) as Ht.
    destruct Hfail as [Hc | [all_content [Hc Hj]]].
    + rewrite Hc in Ht.
      now rewrite (query_handbook_caught env self _ _ _ _ _ Ht).
    + rewrite Hc, Hj in Ht.
      now rewrite (query_handbook_caught env self _ _ _ _ _ Ht).
  - intros results all_content combined H Hne Hc Hj.
    pose proof (try_with_results env self query top t t1 _ H Hne) as Ht.
    rewrite Hc, Hj in Ht.
    now rewrite (query_handbook_returned env self _ _ _ _ _ Ht).
Qed.

Lemma X13_chat_only_with_contents_witness :
  snd (query_handbook world_nothing_found sample_plugin "vacation policy" 3 [])
  = snd (search_documents world_nothing_found sample_plugin "vacation policy" 3 [])
  /\ snd (query_handbook world_search_down sample_plugin "vacation policy" 3 [])
     = snd (search_documents world_search_down sample_plugin "vacation policy" 3 []).
Proof.
  split.
  - eapply (proj1 (proj2 (X13_chat_only_with_contents world_nothing_found
                            sample_plugin "vacation policy" 3 [] _))).
    vm_compute. reflexivity.
  - eapply (proj1 (X13_chat_only_with_contents world_search_down
                     sample_plugin "vacation policy" 3 [] _)).
    vm_compute. reflexivity.
Defined.

(** X14. A result without a content contributes the text
    "No content available" for every query: none of the keywords of the
    narrowing occurs in it, so the narrowing leaves it as it is. *)
Theorem X14_missing_content_placeholder (query_lower : string) (r : SearchResult) :
  dict_get (fields r) "content" = None ->
  shape_content query_lower r = Ok (VStr "No content available").
Proof.
  intros H. unfold shape_content, get_default. rewrite H.
  repeat break_match; reflexivity.
Qed.

Lemma X14_missing_content_placeholder_witness :
  shape_content (lower "Data Security and PTO") {| score := 0; fields := [("title", VStr "T")] |}
  = Ok (VStr "No content available").
Proof.
  apply X14_missing_content_placeholder. reflexivity.
Defined.

(** X15. One result whose content is null spoils the whole answer:
    [query_handbook] then returns the error text, made from an
    [AttributeError] (when the query asks for narrowing) or from the
    [TypeError] of the joining, and does not call the chat service. *)
Theorem X15_null_content_is_an_error (env : Env) (self : Plugin)
    (query : string) (top : Z) (t t1 : Trace)
    (results : list SearchResult) (r : SearchResult) :
  search_documents env self query top t = (Ok results, t1) ->
  In r results ->
  dict_get (fields r) "content" = Some VNone ->
  exists e,
    (class_of e = AttributeError \/ class_of e = TypeError) /\
    query_handbook env self query top t
    = (Ok ("Error querying the Contoso Handbook: " ++ str_of e), t1).
Proof.
  intros Hs Hin Hnull.
  assert (Hne : results <> []) by (intros ->; destruct Hin).
  pose proof (try_with_results env self query top t t1 _ Hs Hne) as Ht.
  destruct (collect_contents_null (lower query) r results [] Hnull (or_intror Hin))
    as [[e [Hc Hclass]] | [all_content [Hc Hnone]]].
  - exists e. split; [now left |].
    rewrite Hc in Ht. exact (query_handbook_caught env self _ _ _ _ _ Ht).
  - destruct (join_values_null (nl ++ nl) all_content Hnone) as [e [Hj Hclass]].
    exists e. split; [now right |].
    rewrite Hc, Hj in Ht. exact (query_handbook_caught env self _ _ _ _ _ Ht).
Qed.

Lemma X15_null_content_is_an_error_witness :
  exists e,
    (class_of e = AttributeError \/ class_of e = TypeError) /\
    query_handbook world_null_content sample_plugin "office hours" 3 []
    = (Ok ("Error querying the Contoso Handbook: " ++ str_of e),
       snd (search_documents world_null_content sample_plugin "office hours" 3 [])).
Proof.
  eapply (X15_null_content_is_an_error world_null_content sample_plugin
            "office hours" 3 [] _ _
            {| score := 4596373779694328218;
               fields := [("content", VNone); ("title", VStr "Untitled")] |}).
  - vm_compute. reflexivity.
  - right. now left.
  - reflexivity.
Defined.

(** X16. A generated text that is all white space is not a failure:
    [rephrase_with_chat_model] then returns the empty string, not the
    content it was given. *)
Theorem X16_blank_answer_is_kept (env : Env) (self : Plugin)
    (content query : string) (t : Trace)
    (response : Response) (decoded : pyval) (generated : string) :
  requests_post env t (chat_url self) (api_headers self) (chat_payload content query)
  = Ok response ->
  status_error response = None ->
  json response = Ok decoded ->
  completion_content decoded = Ok (PStr generated) ->
  blank generated = true ->
  rephrase_with_chat_model env self content query t
  = (Ok EmptyString, (t ++ [chat_call self content query])%list).
Proof.
  intros Hp Hs Hj Hc Hblank. rewrite rephrase_run, Hp.
  unfold chat_outcome. rewrite Hs, Hj, Hc. cbn [method_strip].
  now rewrite (strip_blank generated Hblank).
Qed.

Lemma X16_blank_answer_is_kept_witness :
  rephrase_with_chat_model world_blank_answer sample_plugin
    "Employees get 15 days PTO." "vacation" []
  = (Ok EmptyString,
     ([] ++ [chat_call sample_plugin "Employees get 15 days PTO." "vacation"])%list).
Proof.
  eapply (X16_blank_answer_is_kept world_blank_answer sample_plugin).
  - reflexivity.
  - reflexivity.
  - reflexivity.
  - reflexivity.
  - reflexivity.
Defined.

Lemma append_sources_app (before after : list SearchResult) (i : nat)
    (response : string) :
  append_sources i (before ++ after) response
  = append_sources (i + length before) after (append_sources i before response).
Proof.
  revert i response. induction before as [|r before IH]; intros i response; simpl.
  - now rewrite Nat.add_0_r.
  - now rewrite IH, Nat.add_succ_r.
Qed.

(** X17. A result that has neither a title nor a URL to show (absent,
    null or empty) is listed as "Employee Handbook Section N", where N is
    its position in the list of results, counted from the number the
    listing starts with (1 in [query_handbook]), whatever the results
    before and after it show; so a list of such results only is listed as
    sections 1, 2, 3 and so on. *)
Theorem X17_placeholder_numbering (i : nat) (response : string) :
  (forall before r after,
      anonymous r ->
      append_sources i (before ++ r :: after)%list response
      = append_sources (i + S (length before)) after
          (append_sources i before response
           ++ "- Employee Handbook Section " ++ str_of_nat (i + length before) ++ nl))
  /\ (forall results,
         Forall anonymous results ->
         append_sources i results response
         = response ++ placeholder_lines i (length results)).
Proof.
  split.
  - intros before r after [Ht Hu].
    rewrite append_sources_app. simpl.
    unfold source_line. now rewrite Ht, Hu, Nat.add_succ_r.
  - intros results H.
    now rewrite append_sources_section, (placeholders results i H).
Qed.

Lemma X17_placeholder_numbering_witness :
  append_sources 1
    [{| score := 0; fields := [("title", VStr "Time Off")] |};
     {| score := 0; fields := [("title", VStr EmptyString); ("url", VNone)] |};
     {| score := 0; fields := [("url", VStr "https://contoso.example/handbook")] |}]
    "Sources:"
  = "Sources:" ++ "- Time Off" ++ nl
    ++ "- Employee Handbook Section 2" ++ nl
    ++ "- https://contoso.example/handbook" ++ nl.
Proof.
  exact (proj1 (X17_placeholder_numbering 1 "Sources:")
           [{| score := 0; fields := [("title", VStr "Time Off")] |}]
           {| score := 0; fields := [("title", VStr EmptyString); ("url", VNone)] |}
           [{| score := 0;
               fields := [("url", VStr "https://contoso.example/handbook")] |}]
           (conj eq_refl eq_refl)).
Defined.

(** X18. When the chat service answers, the response of [query_handbook]
    is the header, the generated text stripped of surrounding white
    space, and the sources; the retrieved contents appear in it only as
    far as the generated text repeats them. *)
Theorem X18_answer_layout (env : Env) (self : Plugin)
    (query : string) (top : Z) (t t1 : Trace)
    (results : list SearchResult) (all_content : list value) (combined : string)
    (response : Response) (decoded : pyval) (generated : string) :
  search_documents env self query top t = (Ok results, t1) ->
  results <> [] ->
  collect_contents (lower query) results [] = Ok all_content ->
  join_values (nl ++ nl) all_content = Ok combined ->
  requests_post env t1 (chat_url self) (api_headers self) (chat_payload combined query)
  = Ok response ->
  status_error response = None ->
  json response = Ok decoded ->
  completion_content decoded = Ok (PStr generated) ->
  query_handbook env self query top t
  = (Ok (select_header query ++ strip generated ++ nl ++ nl ++ "**Sources:**" ++ nl
         ++ sources_section 1 results),
     (t1 ++ [chat_call self combined query])%list).
Proof.
  intros Hs Hne Hc Hj Hp Hst Hjs Hcc.
  apply query_handbook_returned.
  rewrite (try_with_results env self query top t t1 results Hs Hne), Hc, Hj, Hp.
  unfold chat_outcome. now rewrite Hst, Hjs, Hcc.
Qed.

Lemma X18_answer_layout_witness :
  fst (query_handbook world_ok sample_plugin "vacation policy" 3 [])
  = Ok ("**Contoso Vacation and Time Off Policy:**" ++ nl ++ nl
        ++ "Fifteen days a year."
        ++ nl ++ nl ++ "**Sources:**" ++ nl
        ++ "- Time Off" ++ nl
        ++ "- https://contoso.example/handbook" ++ nl).
Proof.
  erewrite (X18_answer_layout world_ok sample_plugin "vacation policy" 3 []
              _ sample_results _ _ _ _ "  Fifteen days a year.  ").
  - reflexivity.
  - vm_compute. reflexivity.
  - discriminate.
  - vm_compute. reflexivity.
  - vm_compute. reflexivity.
  - vm_compute. reflexivity.
  - reflexivity.
  - reflexivity.
  - reflexivity.
Defined.

(** X19. One call of [query_handbook] makes at most four calls to the
    services, of which at most two are HTTP posts (the embedding and the
    chat) and at most two are searches. *)
Theorem X19_query_handbook_call_budget (env : Env) (self : Plugin)
    (query : string) (top : Z) (t : Trace) :
  exists calls,
    snd (query_handbook env self query top t) = (t ++ calls)%list /\
    (length calls <= 4)%nat /\
    (length (List.filter is_post calls) <= 2)%nat /\
    (length (List.filter (fun c => negb (is_post c)) calls) <= 2)%nat.
Proof.
  destruct (embedding_trace_any env self query t) as [He | He];
    destruct (search_documents_traces env self query top t) as [Hs | [v [Hs | Hs]]];
    destruct (query_handbook_trace env self query top t) as [Hq | [combined Hq]];
    cbn zeta in Hs; rewrite Hq, Hs, He, <- ?app_assoc;
    first [ exists []; rewrite app_nil_r; split; [reflexivity | cbn; lia]
          | eexists; split; [reflexivity | cbn; lia] ].
Qed.
